(** * calculator.py: the safe arithmetic evaluator

    A shallow embedding of [src/calculator.py].  The program has two layers:

    - the repository's own code: the [_Evaluator] visitor
      ([visit_Expression], [visit_Constant], [visit_BinOp], [visit_UnaryOp],
      [generic_visit]), the two operator tables [_ALLOWED_BIN_OPS] and
      [_ALLOWED_UNARY_OPS], and the entry point [eval_expr];
    - the Python run time it calls: [ast.parse] (tokenizer and expression
      grammar), and the functions of the [operator] module on Python numbers
      ([int], [bool], [float], [complex]).

    Both layers are modelled.  Integers are [Z]; floats are IEEE 754 binary64
    values ([spec_float] with 53 bits of precision); the results of the C
    library's transcendental functions, which Python does not specify bit
    for bit, are taken from a [platform] record. *)

From Stdlib Require Import ZArith List Bool String Ascii Lia.
From Stdlib Require Import Floats.SpecFloat.
Import ListNotations.

#[local] Set Warnings "-register-all".
Local Open Scope Z_scope.

(** ** Binary64 floats *)

Module Float64.

Definition prec : Z := 53.
Definition emax : Z := 1024.

Definition float : Type := spec_float.

Definition zero : float := S754_zero false.
Definition nan : float := S754_nan.

(** [float(n)] for an integer [n], rounded to nearest, ties to even
    ([PyLong_AsDouble]); an integer beyond the range of floats rounds to an
    infinity here, and the callers raise [OverflowError] on it. *)
Definition of_Z (n : Z) : float := binary_normalize prec emax n 0 false.

Definition one : float := of_Z 1.

Definition add : float -> float -> float := SFadd prec emax.
Definition sub : float -> float -> float := SFsub prec emax.
Definition mul : float -> float -> float := SFmul prec emax.
Definition div : float -> float -> float := SFdiv prec emax.
Definition opp : float -> float := SFopp.
Definition abs : float -> float := SFabs.
Definition eqb : float -> float -> bool := SFeqb.
Definition ltb : float -> float -> bool := SFltb.

Definition is_nan (x : float) : bool :=
  match x with S754_nan => true | _ => false end.

Definition is_inf (x : float) : bool :=
  match x with S754_infinity _ => true | _ => false end.

(** C's [x == 0.0]: true of both zeros, false of NaN. *)
Definition is_zero (x : float) : bool :=
  match x with S754_zero _ => true | _ => false end.

Definition sign (x : float) : bool :=
  match x with
  | S754_zero s | S754_infinity s | S754_finite s _ _ => s
  | S754_nan => false
  end.

(** C's [copysign(0.0, x)]. *)
Definition zero_with_sign_of (x : float) : float := S754_zero (sign x).

(** The quotient [a / b] of two positive integers, correctly rounded, with
    sign [s]: how CPython divides two integers ([long_true_divide]) and how
    it reads a decimal literal with a negative exponent. *)
Definition div_pos (s : bool) (a b : positive) : float :=
  let '(q, e, l) := SFdiv_core_binary prec emax (Zpos a) 0 (Zpos b) 0 in
  binary_round_aux prec emax s q e l.

(** The float nearest to [m * 10 ^ e], for [0 <= m]: a decimal literal. *)
Definition of_decimal (m e : Z) : float :=
  match m with
  | Zpos p =>
      if 0 <=? e then of_Z (m * 10 ^ e)
      else div_pos false p (Z.to_pos (10 ^ (- e)))
  | _ => zero
  end.

(** C's [floor]. *)
Definition floor (x : float) : float :=
  match x with
  | S754_finite s m e =>
      if 0 <=? e then x
      else binary_normalize prec emax (Z.shiftr (cond_Zopp s (Zpos m)) (- e)) 0 s
  | _ => x
  end.

(** C's [fmod]: the remainder of the truncated division, exact, with the
    sign of [x]. *)
Definition fmod (x y : float) : float :=
  match x, y with
  | S754_nan, _ | _, S754_nan => nan
  | S754_infinity _, _ => nan
  | _, S754_zero _ => nan
  | S754_zero _, _ => x
  | S754_finite _ _ _, S754_infinity _ => x
  | S754_finite sx mx ex, S754_finite _ my ey =>
      let e := Z.min ex ey in
      let r := Z.rem (Zpos mx * 2 ^ (ex - e)) (Zpos my * 2 ^ (ey - e)) in
      binary_normalize prec emax (cond_Zopp sx r) e sx
  end.

(** An integer-valued float that is odd ([DOUBLE_IS_ODD_INTEGER]). *)
Definition is_odd_integer (x : float) : bool :=
  match x with
  | S754_finite _ m e =>
      if 0 <? e then false
      else if e =? 0 then Z.odd (Zpos m)
      else andb (Z.eqb (Z.land (Zpos m) (Z.ones (- e))) 0)
                (Z.odd (Z.shiftr (Zpos m) (- e)))
  | _ => false
  end.

(** [x != floor(x)]. *)
Definition is_integral (x : float) : bool := eqb x (floor x).

End Float64.

(** ** The syntax trees of Python's [ast] module *)

Module ast.

(** What a [Constant] node can hold. *)
Inductive constant : Type :=
  | CInt (n : Z)
  | CFloat (x : Float64.float)
  | CImag (x : Float64.float)        (* the imaginary literal [xj] *)
  | CStr (s : string)
  | CBytes (s : string)
  | CBool (b : bool)
  | CNone
  | CEllipsis.

(** The classes of [ast.operator]. *)
Inductive operator : Type :=
  | Add | Sub | Mult | MatMult | Div | Mod | Pow
  | LShift | RShift | BitOr | BitXor | BitAnd | FloorDiv.

(** The classes of [ast.unaryop]. *)
Inductive unaryop : Type := Invert | Not | UAdd | USub.

(** The classes of [ast.expr].  [Other] stands for every class the visitor
    has no method for and the grammar below does not build ([Compare],
    [BoolOp], [Lambda], [Subscript], ...): the visitor reads nothing of such
    a node but the name of its class. *)
Inductive expr : Type :=
  | Constant (value : constant)
  | BinOp (left : expr) (op : operator) (right : expr)
  | UnaryOp (op : unaryop) (operand : expr)
  | Name (id : string)
  | Call (func : expr) (args : list expr)
  | Attribute (value : expr) (attr : string)
  | List_ (elts : list expr)
  | Tuple (elts : list expr)
  | Other (class_name : string) (fields : list expr).

(** The root [ast.parse(..., mode="eval")] returns. *)
Inductive mod_ : Type := Expression (body : expr).

(** [type(node).__name__]. *)
Definition class_name_of (e : expr) : string :=
  match e with
  | Constant _ => "Constant"
  | BinOp _ _ _ => "BinOp"
  | UnaryOp _ _ => "UnaryOp"
  | Name _ => "Name"
  | Call _ _ => "Call"
  | Attribute _ _ => "Attribute"
  | List_ _ => "List"
  | Tuple _ => "Tuple"
  | Other c _ => c
  end.

Definition operator_eqb (a b : operator) : bool :=
  match a, b with
  | Add, Add | Sub, Sub | Mult, Mult | MatMult, MatMult | Div, Div
  | Mod, Mod | Pow, Pow | LShift, LShift | RShift, RShift | BitOr, BitOr
  | BitXor, BitXor | BitAnd, BitAnd | FloorDiv, FloorDiv => true
  | _, _ => false
  end.

Definition unaryop_eqb (a b : unaryop) : bool :=
  match a, b with
  | Invert, Invert | Not, Not | UAdd, UAdd | USub, USub => true
  | _, _ => false
  end.

End ast.

(** ** Python values, exceptions and results *)

Module Py.

Import ast.

Definition complex : Type := (Float64.float * Float64.float)%type.

(** The objects evaluation handles: [bool] is kept apart from [int], of
    which it is a subclass. *)
Inductive value : Type :=
  | VInt (n : Z)
  | VBool (b : bool)
  | VFloat (x : Float64.float)
  | VComplex (c : complex).

(** The four messages of the program's [ValueError]s. *)
Inductive unsupported : Type :=
  | UnsupportedConstant (c : constant)
  | UnsupportedBinaryOperator (op : operator)
  | UnsupportedUnaryOperator (op : unaryop)
  | UnsupportedComponent (class_name : string).

(** The exceptions evaluation can end in. *)
Inductive exn : Type :=
  | SyntaxError
  | ValueError (what : unsupported)
  | ZeroDivisionError
  | OverflowError
  | TypeError.

Inductive result (A : Type) : Type :=
  | Return (a : A)
  | Raise (e : exn).

Arguments Return {A} a.
Arguments Raise {A} e.

Definition bind {A B : Type} (r : result A) (k : A -> result B) : result B :=
  match r with
  | Return a => k a
  | Raise e => Raise e
  end.

(** [isinstance(v, int)], [isinstance(v, float)], [isinstance(v, complex)]. *)
Definition is_int (v : value) : bool :=
  match v with VInt _ | VBool _ => true | _ => false end.

Definition is_bool (v : value) : bool :=
  match v with VBool _ => true | _ => false end.

Definition is_float (v : value) : bool :=
  match v with VFloat _ => true | _ => false end.

Definition is_complex (v : value) : bool :=
  match v with VComplex _ => true | _ => false end.

(** C's [errno] after a library call. *)
Inductive errno : Type := ENone | EDOM | ERANGE.

(** What the C run time computes and Python leaves to it: [pow] of the
    mathematical library on a finite positive base and a finite non-zero
    exponent, and the complex routines of CPython ([_Py_c_sum],
    [_Py_c_diff], [_Py_c_prod], [_Py_c_quot] on a non-zero divisor, and the
    power routine with the [errno] it leaves). *)
Record platform : Type := {
  libm_pow : Float64.float -> Float64.float -> Float64.float;
  c_sum : complex -> complex -> complex;
  c_diff : complex -> complex -> complex;
  c_prod : complex -> complex -> complex;
  c_quot : complex -> complex -> complex;
  c_pow : complex -> complex -> complex * errno
}.

End Py.

Declare Scope py_scope.
Delimit Scope py_scope with py.
Notation "x <- c1 ;; c2" := (Py.bind c1 (fun x => c2))
  (at level 61, c1 at next level, right associativity) : py_scope.

(** ** The [operator] module on numbers

    The program imports it as [_op].  Each function follows CPython's
    number protocol: two integers (booleans count) are combined exactly; an
    integer met by a float is converted to a float first, which raises
    [OverflowError] when it does not fit; a complex operand turns the other
    into a complex number. *)

Module _op.

Import Py.
Local Open Scope py_scope.

(** The integer a value of type [int] (or [bool]) holds. *)
Definition as_int (v : value) : option Z :=
  match v with
  | VInt n => Some n
  | VBool b => Some (Z.b2z b)
  | _ => None
  end.

(** [PyLong_AsDouble]. *)
Definition float_of_int (n : Z) : result Float64.float :=
  let x := Float64.of_Z n in
  if Float64.is_inf x then Raise OverflowError else Return x.

(** [CONVERT_TO_DOUBLE]; a complex number has no float value. *)
Definition as_float (v : value) : result Float64.float :=
  match v with
  | VInt n => float_of_int n
  | VBool b => float_of_int (Z.b2z b)
  | VFloat x => Return x
  | VComplex _ => Raise TypeError
  end.

(** [TO_COMPLEX]. *)
Definition as_complex (v : value) : result complex :=
  match v with
  | VComplex c => Return c
  | _ => x <- as_float v ;; Return (x, Float64.zero)
  end.

Definition complex_is_zero (c : complex) : bool :=
  Float64.is_zero (fst c) && Float64.is_zero (snd c).

(** Which of the three arithmetics a pair of operands selects. *)
Inductive arithmetic : Type :=
  | Integers (m n : Z)
  | Floats
  | Complexes.

Definition coerce (a b : value) : arithmetic :=
  match as_int a, as_int b with
  | Some m, Some n => Integers m n
  | _, _ => if is_complex a || is_complex b then Complexes else Floats
  end.

Section WithPlatform.

Variable P : platform.

Definition add (a b : value) : result value :=
  match coerce a b with
  | Integers m n => Return (VInt (m + n))
  | Floats =>
      x <- as_float a ;; y <- as_float b ;; Return (VFloat (Float64.add x y))
  | Complexes =>
      x <- as_complex a ;; y <- as_complex b ;;
      Return (VComplex (c_sum P x y))
  end.

Definition sub (a b : value) : result value :=
  match coerce a b with
  | Integers m n => Return (VInt (m - n))
  | Floats =>
      x <- as_float a ;; y <- as_float b ;; Return (VFloat (Float64.sub x y))
  | Complexes =>
      x <- as_complex a ;; y <- as_complex b ;;
      Return (VComplex (c_diff P x y))
  end.

Definition mul (a b : value) : result value :=
  match coerce a b with
  | Integers m n => Return (VInt (m * n))
  | Floats =>
      x <- as_float a ;; y <- as_float b ;; Return (VFloat (Float64.mul x y))
  | Complexes =>
      x <- as_complex a ;; y <- as_complex b ;;
      Return (VComplex (c_prod P x y))
  end.

(** [long_true_divide]: the quotient of two integers, correctly rounded. *)
Definition int_true_divide (m n : Z) : result value :=
  if n =? 0 then Raise ZeroDivisionError
  else
    let negate := xorb (m <? 0) (n <? 0) in
    match m with
    | 0 => Return (VFloat (S754_zero negate))
    | _ =>
        let x := Float64.div_pos negate (Z.to_pos (Z.abs m)) (Z.to_pos (Z.abs n)) in
        if Float64.is_inf x then Raise OverflowError else Return (VFloat x)
    end.

Definition truediv (a b : value) : result value :=
  match coerce a b with
  | Integers m n => int_true_divide m n
  | Floats =>
      x <- as_float a ;; y <- as_float b ;;
      if Float64.is_zero y then Raise ZeroDivisionError
      else Return (VFloat (Float64.div x y))
  | Complexes =>
      x <- as_complex a ;; y <- as_complex b ;;
      if complex_is_zero y then Raise ZeroDivisionError
      else Return (VComplex (c_quot P x y))
  end.

(** [_float_div_mod] on a non-zero divisor: the floored quotient and the
    remainder, with the sign of the divisor. *)
Definition float_divmod (vx wx : Float64.float) : Float64.float * Float64.float :=
  let md := Float64.fmod vx wx in
  let dv := Float64.div (Float64.sub vx md) wx in
  let '(md, dv) :=
    if negb (Float64.is_zero md) then
      if negb (Bool.eqb (Float64.ltb wx Float64.zero) (Float64.ltb md Float64.zero))
      then (Float64.add md wx, Float64.sub dv Float64.one)
      else (md, dv)
    else (Float64.zero_with_sign_of wx, dv) in
  let fl :=
    if negb (Float64.is_zero dv) then
      let f := Float64.floor dv in
      if Float64.ltb (Float64.of_decimal 5 (-1)) (Float64.sub dv f)
      then Float64.add f Float64.one else f
    else Float64.zero_with_sign_of (Float64.div vx wx) in
  (fl, md).

Definition floordiv (a b : value) : result value :=
  match coerce a b with
  | Integers m n =>
      if n =? 0 then Raise ZeroDivisionError else Return (VInt (m / n))
  | Floats =>
      x <- as_float a ;; y <- as_float b ;;
      if Float64.is_zero y then Raise ZeroDivisionError
      else Return (VFloat (fst (float_divmod x y)))
  | Complexes => Raise TypeError
  end.

Definition mod_ (a b : value) : result value :=
  match coerce a b with
  | Integers m n =>
      if n =? 0 then Raise ZeroDivisionError else Return (VInt (m mod n))
  | Floats =>
      x <- as_float a ;; y <- as_float b ;;
      if Float64.is_zero y then Raise ZeroDivisionError
      else Return (VFloat (snd (float_divmod x y)))
  | Complexes => Raise TypeError
  end.

(** [complex_pow]: the platform's routine, then [errno] read as Python
    reads it. *)
Definition complex_pow (x y : complex) : result value :=
  let '(p, err) := c_pow P x y in
  match err with
  | ENone => Return (VComplex p)
  | EDOM => Raise ZeroDivisionError
  | ERANGE => Raise OverflowError
  end.

(** [float_pow]: the special cases CPython sorts out itself, among them the
    negative base with a fractional exponent, which "becomes complex", and
    the platform's [pow] for the rest. *)
Definition float_pow (iv iw : Float64.float) : result value :=
  if Float64.is_zero iw then Return (VFloat Float64.one)
  else if Float64.is_nan iv then Return (VFloat iv)
  else if Float64.is_nan iw then
    Return (VFloat (if Float64.eqb iv Float64.one then Float64.one else iw))
  else if Float64.is_inf iw then
    let av := Float64.abs iv in
    if Float64.eqb av Float64.one then Return (VFloat Float64.one)
    else if Bool.eqb (Float64.ltb Float64.zero iw) (Float64.ltb Float64.one av)
    then Return (VFloat (Float64.abs iw))
    else Return (VFloat Float64.zero)
  else if Float64.is_inf iv then
    let odd := Float64.is_odd_integer iw in
    if Float64.ltb Float64.zero iw
    then Return (VFloat (if odd then iv else Float64.abs iv))
    else Return (VFloat (if odd then Float64.zero_with_sign_of iv else Float64.zero))
  else if Float64.is_zero iv then
    if Float64.ltb iw Float64.zero then Raise ZeroDivisionError
    else Return (VFloat (if Float64.is_odd_integer iw then iv else Float64.zero))
  else if Float64.ltb iv Float64.zero && negb (Float64.is_integral iw) then
    complex_pow (iv, Float64.zero) (iw, Float64.zero)
  else
    let negate_result := Float64.ltb iv Float64.zero && Float64.is_odd_integer iw in
    let av := Float64.abs iv in
    if Float64.eqb av Float64.one
    then Return (VFloat (if negate_result then Float64.opp Float64.one else Float64.one))
    else
      let ix := libm_pow P av iw in
      if Float64.is_inf ix then Raise OverflowError
      else Return (VFloat (if negate_result then Float64.opp ix else ix)).

(** [long_pow]: exact for an exponent that is not negative, the float power
    otherwise. *)
Definition int_pow (m n : Z) : result value :=
  if n <? 0 then
    x <- float_of_int m ;; y <- float_of_int n ;; float_pow x y
  else Return (VInt (m ^ n)).

Definition pow (a b : value) : result value :=
  match coerce a b with
  | Integers m n => int_pow m n
  | Floats => x <- as_float a ;; y <- as_float b ;; float_pow x y
  | Complexes => x <- as_complex a ;; y <- as_complex b ;; complex_pow x y
  end.

End WithPlatform.

Definition pos (a : value) : result value :=
  match a with
  | VBool b => Return (VInt (Z.b2z b))
  | _ => Return a
  end.

Definition neg (a : value) : result value :=
  match a with
  | VInt n => Return (VInt (- n))
  | VBool b => Return (VInt (- Z.b2z b))
  | VFloat x => Return (VFloat (Float64.opp x))
  | VComplex c => Return (VComplex (Float64.opp (fst c), Float64.opp (snd c)))
  end.

End _op.

(** ** [ast.parse]: the tokenizer

    The part of Python's lexical grammar an arithmetic expression on one
    line can be written in: numbers in all their forms, names, the keywords
    [True], [False] and [None], plain string literals, the arithmetic
    operators, brackets, commas and dots.  On a character or a form beyond
    it (comparison and bitwise operators, other keywords, comments, line
    breaks, escapes, string prefixes, ...) the tokenizer answers [None]: the
    input is outside the modelled fragment, and nothing is said about it. *)

Module Tokenizer.

Import ast.

Inductive token : Type :=
  | CONST (c : constant)      (* a number, [True], [False] or [None] *)
  | STRING (s : string)
  | NAME (id : string)
  | PLUS | MINUS | STAR | DOUBLESTAR | SLASH | DOUBLESLASH | PERCENT | AT
  | TILDE | LPAR | RPAR | LSQB | RSQB | COMMA | DOT
  | INDENT                    (* blanks before the first token *)
  | ERRORTOKEN.               (* a literal the tokenizer rejects *)

Definition code (c : ascii) : Z := Z.of_N (N_of_ascii c).

Definition is_digit (c : ascii) : bool := (48 <=? code c) && (code c <=? 57).

Definition is_letter (c : ascii) : bool :=
  ((97 <=? code c) && (code c <=? 122)) || ((65 <=? code c) && (code c <=? 90)).

Definition is_underscore (c : ascii) : bool := code c =? 95.

Definition is_name_char (c : ascii) : bool :=
  is_letter c || is_digit c || is_underscore c.

Definition is_blank (c : ascii) : bool := (code c =? 32) || (code c =? 9).

Definition is_quote (c : ascii) : bool := (code c =? 39) || (code c =? 34).

(** A character a plain string literal may hold: printable ASCII, no
    backslash. *)
Definition is_plain_char (c : ascii) : bool :=
  (32 <=? code c) && (code c <=? 126) && negb (code c =? 92).

(** The value of [c] as a digit in [base], if it is one. *)
Definition digit_value (base : Z) (c : ascii) : option Z :=
  let n := code c in
  let d :=
    if is_digit c then n - 48
    else if (97 <=? n) && (n <=? 102) then n - 87
    else if (65 <=? n) && (n <=? 70) then n - 55
    else base in
  if d <? base then Some d else None.

(** [(["_"] digit)*]: the value read so far, the number of digits read, and
    what is left. *)
Fixpoint digits_tail (base acc : Z) (n : nat) (s : list ascii)
  : Z * nat * list ascii :=
  match s with
  | c :: r =>
      match digit_value base c with
      | Some d => digits_tail base (acc * base + d) (S n) r
      | None =>
          if is_underscore c then
            match r with
            | c' :: r' =>
                match digit_value base c' with
                | Some d => digits_tail base (acc * base + d) (S n) r'
                | None => (acc, n, s)
                end
            | [] => (acc, n, s)
            end
          else (acc, n, s)
      end
  | [] => (acc, n, s)
  end.

(** [digitpart ::= digit (["_"] digit)*]. *)
Definition digitpart (s : list ascii) : option (Z * nat * list ascii) :=
  match s with
  | c :: r =>
      match digit_value 10 c with
      | Some d => Some (digits_tail 10 d 1 r)
      | None => None
      end
  | [] => None
  end.

(** [["e" ["+" | "-"] digitpart]]: the exponent and what is left; [None] when
    an exponent starts and does not finish. *)
Definition exponent (s : list ascii) : option (Z * list ascii) :=
  match s with
  | c :: r =>
      if (code c =? 101) || (code c =? 69) then
        match r with
        | sg :: r' =>
            if code sg =? 43 then
              match digitpart r' with
              | Some (v, _, rest) => Some (v, rest)
              | None => None
              end
            else if code sg =? 45 then
              match digitpart r' with
              | Some (v, _, rest) => Some (- v, rest)
              | None => None
              end
            else
              match digitpart r with
              | Some (v, _, rest) => Some (v, rest)
              | None => None
              end
        | [] => None
        end
      else Some (0, s)
  | [] => Some (0, s)
  end.

Definition is_j (c : ascii) : bool := (code c =? 106) || (code c =? 74).

(** The end of a float literal: nothing, or the [j] of an imaginary one. *)
Definition float_token (x : Float64.float) (rest : list ascii) : option token :=
  match rest with
  | [] => Some (CONST (CFloat x))
  | [c] => if is_j c then Some (CONST (CImag x)) else None
  | _ => None
  end.

(** A decimal literal: [decinteger], [floatnumber] or [imagnumber]. *)
Definition decimal_literal (s : list ascii) : option token :=
  let '(ipart, after_int) :=
    match digitpart s with
    | Some (v, _, rest) => (Some v, rest)
    | None => (None, s)
    end in
  match after_int with
  | [] =>
      match ipart, s with
      | Some v, c :: _ =>
          if (code c =? 48) && negb (v =? 0) then Some ERRORTOKEN
          else Some (CONST (CInt v))
      | _, _ => None
      end
  | c :: r =>
      if code c =? 46 then
        let '(fpart, nfrac, after_frac) :=
          match digitpart r with
          | Some (v, n, rest) => (Some v, n, rest)
          | None => (None, O, r)
          end in
        match ipart, fpart with
        | None, None => None
        | _, _ =>
            let i := match ipart with Some v => v | None => 0 end in
            let f := match fpart with Some v => v | None => 0 end in
            match exponent after_frac with
            | Some (e, rest) =>
                float_token
                  (Float64.of_decimal (i * 10 ^ Z.of_nat nfrac + f) (e - Z.of_nat nfrac))
                  rest
            | None => None
            end
        end
      else
        match ipart with
        | Some i =>
            if is_j c then
              match r with
              | [] => Some (CONST (CImag (Float64.of_decimal i 0)))
              | _ => None
              end
            else if (code c =? 101) || (code c =? 69) then
              match exponent after_int with
              | Some (e, rest) => float_token (Float64.of_decimal i e) rest
              | None => None
              end
            else None
        | None => None
        end
  end.

(** [bininteger], [octinteger], [hexinteger]: ["0" letter (["_"] digit)+]. *)
Definition radix_literal (base : Z) (s : list ascii) : option token :=
  match digits_tail base 0 O s with
  | (v, S _, []) => Some (CONST (CInt v))
  | _ => None
  end.

(** The token a run of number characters makes, [None] when the run is not
    one complete literal of the fragment. *)
Definition number_token (s : list ascii) : option token :=
  match s with
  | z :: x :: r =>
      if code z =? 48 then
        if (code x =? 120) || (code x =? 88) then radix_literal 16 r
        else if (code x =? 111) || (code x =? 79) then radix_literal 8 r
        else if (code x =? 98) || (code x =? 66) then radix_literal 2 r
        else decimal_literal s
      else decimal_literal s
  | _ => decimal_literal s
  end.

Definition keywords : list string :=
  ["and"; "as"; "assert"; "async"; "await"; "break"; "class"; "continue";
   "def"; "del"; "elif"; "else"; "except"; "finally"; "for"; "from";
   "global"; "if"; "import"; "in"; "is"; "lambda"; "nonlocal"; "not"; "or";
   "pass"; "raise"; "return"; "try"; "while"; "with"; "yield"]%string.

Definition name_token (s : list ascii) : option token :=
  let id := string_of_list_ascii s in
  if String.eqb id "True" then Some (CONST (CBool true))
  else if String.eqb id "False" then Some (CONST (CBool false))
  else if String.eqb id "None" then Some (CONST CNone)
  else if existsb (String.eqb id) keywords then None
  else Some (NAME id).

(** What the tokenizer holds of a token it has not finished. *)
Inductive pending : Type :=
  | Idle
  | InName (rev_chars : list ascii)
  | InNumber (rev_chars : list ascii)
  | InString (quote : ascii) (rev_chars : list ascii)
  | AfterEmptyString (quote : ascii)
  | AfterStar
  | AfterSlash
  | AfterDot.

(** A sign continues a number only as the sign of a decimal exponent. *)
Definition exponent_sign_ok (rev_chars : list ascii) : bool :=
  match rev_chars with
  | e :: before =>
      ((code e =? 101) || (code e =? 69))
      && forallb (fun c => is_digit c || is_underscore c || (code c =? 46)) before
  | [] => false
  end.

Definition continues_number (rev_chars : list ascii) (c : ascii) : bool :=
  is_name_char c || (code c =? 46)
  || (((code c =? 43) || (code c =? 45)) && exponent_sign_ok rev_chars).

(** The tokens a pending token makes when the next character ends it. *)
Definition flush (p : pending) : option (list token) :=
  match p with
  | Idle => Some []
  | InName r => option_map (fun t => [t]) (name_token (rev r))
  | InNumber r => option_map (fun t => [t]) (number_token (rev r))
  | InString _ _ => Some [ERRORTOKEN]      (* unterminated string literal *)
  | AfterEmptyString _ => Some [STRING ""]
  | AfterStar => Some [STAR]
  | AfterSlash => Some [SLASH]
  | AfterDot => Some [DOT]
  end.

(** A character met between tokens. *)
Definition start (c : ascii) : option (list token * pending) :=
  if is_blank c then Some ([], Idle)
  else if is_digit c then Some ([], InNumber [c])
  else if is_letter c || is_underscore c then Some ([], InName [c])
  else if is_quote c then Some ([], InString c [])
  else
    match code c with
    | 46 => Some ([], AfterDot)
    | 42 => Some ([], AfterStar)
    | 47 => Some ([], AfterSlash)
    | 43 => Some ([PLUS], Idle)
    | 45 => Some ([MINUS], Idle)
    | 37 => Some ([PERCENT], Idle)
    | 64 => Some ([AT], Idle)
    | 126 => Some ([TILDE], Idle)
    | 40 => Some ([LPAR], Idle)
    | 41 => Some ([RPAR], Idle)
    | 91 => Some ([LSQB], Idle)
    | 93 => Some ([RSQB], Idle)
    | 44 => Some ([COMMA], Idle)
    | _ => None
    end.

Definition flush_then_start (p : pending) (c : ascii)
  : option (list token * pending) :=
  match flush p, start c with
  | Some ts, Some (ts', p') => Some (ts ++ ts', p')
  | _, _ => None
  end.

(** One character: the tokens it completes and the new pending token. *)
Definition step (p : pending) (c : ascii) : option (list token * pending) :=
  match p with
  | InString q r =>
      if Ascii.eqb c q then
        match r with
        | [] => Some ([], AfterEmptyString q)
        | _ => Some ([STRING (string_of_list_ascii (rev r))], Idle)
        end
      else if is_plain_char c then Some ([], InString q (c :: r))
      else None
  | AfterEmptyString q =>
      if Ascii.eqb c q then None          (* a triple-quoted string *)
      else flush_then_start p c
  | InName r =>
      if is_name_char c then Some ([], InName (c :: r))
      else if is_quote c then None        (* a string prefix *)
      else flush_then_start p c
  | InNumber r =>
      if continues_number r c then Some ([], InNumber (c :: r))
      else flush_then_start p c
  | AfterStar =>
      if code c =? 42 then Some ([DOUBLESTAR], Idle) else flush_then_start p c
  | AfterSlash =>
      if code c =? 47 then Some ([DOUBLESLASH], Idle) else flush_then_start p c
  | AfterDot =>
      if is_digit c then Some ([], InNumber [c; "."%char])
      else if code c =? 46 then None      (* maybe an ellipsis *)
      else flush_then_start p c
  | Idle => start c
  end.

Fixpoint run (p : pending) (s : list ascii) : option (list token) :=
  match s with
  | [] => flush p
  | c :: r =>
      match step p c with
      | Some (ts, p') => option_map (app ts) (run p' r)
      | None => None
      end
  end.

(** The tokens of a line. *)
Definition tokenize (s : string) : option (list token) :=
  let cs := list_ascii_of_string s in
  match cs with
  | c :: _ => if is_blank c then option_map (cons INDENT) (run Idle cs)
              else run Idle cs
  | [] => run Idle cs
  end.

End Tokenizer.

(** ** [ast.parse]: the expression grammar

    The productions of Python's grammar the tokens above can spell:

      eval        := expressions
      expressions := expression ("," expression)* [","]
      sum         := sum ("+" | "-") term | term
      term        := term ("*" | "/" | "//" | "%" | "@") factor | factor
      factor      := ("+" | "-" | "~") factor | power
      power       := primary ["**" factor]
      primary     := primary "." NAME | primary "(" [arguments] ")" | atom
      atom        := NAME | NUMBER | STRING | "True" | "False" | "None"
                   | "(" [expressions] ")" | "[" [expressions] "]"

    read by operator precedence, one token at a time: a stack of open
    brackets, each with the operators that still wait for their right
    operand.  Subscripts, starred elements and adjacent string literals are
    outside the fragment. *)

Module Parser.

Import ast Tokenizer.

Inductive outcome (A : Type) : Type :=
  | Parsed (a : A)
  | Rejected            (* Python raises SyntaxError *)
  | Unmodelled.         (* outside the modelled fragment *)

Arguments Parsed {A} a.
Arguments Rejected {A}.
Arguments Unmodelled {A}.

(** An operator that waits for its (right) operand. *)
Inductive waiting : Type :=
  | Prefix (op : unaryop)
  | Infix (left : expr) (op : operator).

(** What opened a bracket. *)
Inductive bracket : Type :=
  | Top                       (* the whole input *)
  | Group                     (* "(" after an operator or at the start *)
  | Display                   (* "[" *)
  | Arguments (func : expr).  (* "(" after a primary: a call *)

Record frame : Type := {
  kind : bracket;
  items : list expr;          (* the elements before the last comma, reversed *)
  ops : list waiting          (* innermost first *)
}.

Inductive mode : Type :=
  | WantOperand
  | HaveOperand (e : expr)
  | WantAttr (e : expr).

Record state : Type := {
  cur : frame;
  outer : list frame;
  now : mode
}.

Definition precedence (op : operator) : nat :=
  match op with
  | Add | Sub => 1
  | Mult | Div | FloorDiv | Mod | MatMult => 2
  | Pow => 4
  | _ => 0
  end.

Definition prefix_precedence : nat := 3.

(** The operators on the stack an incoming binary operator closes: those
    that bind at least as tightly, none for the right-associative [**]. *)
Definition threshold (op : operator) : nat :=
  match op with
  | Pow => 5
  | _ => precedence op
  end.

(** Give [e] to every waiting operator of precedence [p] or more. *)
Fixpoint reduce (p : nat) (ws : list waiting) (e : expr)
  : list waiting * expr :=
  match ws with
  | Prefix u :: rest =>
      if Nat.leb p prefix_precedence then reduce p rest (UnaryOp u e)
      else (ws, e)
  | Infix l o :: rest =>
      if Nat.leb p (precedence o) then reduce p rest (BinOp l o e)
      else (ws, e)
  | [] => ([], e)
  end.

Definition reduce_all (ws : list waiting) (e : expr) : expr :=
  snd (reduce 0 ws e).

Definition binary_operator (t : token) : option operator :=
  match t with
  | PLUS => Some Add
  | MINUS => Some Sub
  | STAR => Some Mult
  | SLASH => Some Div
  | DOUBLESLASH => Some FloorDiv
  | PERCENT => Some Mod
  | AT => Some MatMult
  | DOUBLESTAR => Some Pow
  | _ => None
  end.

Definition prefix_operator (t : token) : option unaryop :=
  match t with
  | PLUS => Some UAdd
  | MINUS => Some USub
  | TILDE => Some Invert
  | _ => None
  end.

Definition open_bracket (k : bracket) (st : state) : state :=
  {| cur := {| kind := k; items := []; ops := [] |};
     outer := cur st :: outer st;
     now := WantOperand |}.

(** Close the innermost bracket: [e] is the primary it makes. *)
Definition close_bracket (e : expr) (st : state) : outcome state :=
  match outer st with
  | f :: fs => Parsed {| cur := f; outer := fs; now := HaveOperand e |}
  | [] => Rejected
  end.

Definition with_operand (e : expr) (st : state) : state :=
  {| cur := cur st; outer := outer st; now := HaveOperand e |}.

Definition push (w : waiting) (ws : list waiting) (st : state) : state :=
  {| cur := {| kind := kind (cur st); items := items (cur st); ops := w :: ws |};
     outer := outer st;
     now := WantOperand |}.

(** A closing bracket where an operand could start: an empty bracket, or
    one that ends in a comma. *)
Definition close_empty (t : token) (st : state) : outcome state :=
  match ops (cur st) with
  | _ :: _ => Rejected
  | [] =>
      match t, kind (cur st) with
      | RPAR, Group => close_bracket (Tuple (rev (items (cur st)))) st
      | RPAR, Arguments f => close_bracket (Call f (rev (items (cur st)))) st
      | RSQB, Display => close_bracket (List_ (rev (items (cur st)))) st
      | _, _ => Rejected
      end
  end.

(** A closing bracket after the operand [e]. *)
Definition close_after (t : token) (e : expr) (st : state) : outcome state :=
  let e' := reduce_all (ops (cur st)) e in
  let all := rev (e' :: items (cur st)) in
  match t, kind (cur st) with
  | RPAR, Group =>
      match items (cur st) with
      | [] => close_bracket e' st
      | _ :: _ => close_bracket (Tuple all) st
      end
  | RPAR, Arguments f => close_bracket (Call f all) st
  | RSQB, Display => close_bracket (List_ all) st
  | _, _ => Rejected
  end.

Definition step (st : state) (t : token) : outcome state :=
  match now st with
  | WantOperand =>
      match t with
      | CONST c => Parsed (with_operand (Constant c) st)
      | STRING s => Parsed (with_operand (Constant (CStr s)) st)
      | NAME id => Parsed (with_operand (Name id) st)
      | PLUS | MINUS | TILDE =>
          match prefix_operator t with
          | Some u => Parsed (push (Prefix u) (ops (cur st)) st)
          | None => Rejected
          end
      | LPAR => Parsed (open_bracket Group st)
      | LSQB => Parsed (open_bracket Display st)
      | RPAR | RSQB => close_empty t st
      | STAR | DOUBLESTAR =>
          match ops (cur st) with
          | [] => Unmodelled            (* a starred element or argument *)
          | _ :: _ => Rejected
          end
      | SLASH | DOUBLESLASH | PERCENT | AT | COMMA | DOT => Rejected
      | INDENT | ERRORTOKEN => Rejected
      end
  | HaveOperand e =>
      match t with
      | PLUS | MINUS | STAR | SLASH | DOUBLESLASH | PERCENT | AT | DOUBLESTAR =>
          match binary_operator t with
          | Some o =>
              let '(ws, e') := reduce (threshold o) (ops (cur st)) e in
              Parsed (push (Infix e' o) ws st)
          | None => Rejected
          end
      | LPAR => Parsed (open_bracket (Arguments e) st)
      | LSQB => Unmodelled              (* a subscript *)
      | DOT => Parsed {| cur := cur st; outer := outer st; now := WantAttr e |}
      | COMMA =>
          Parsed {| cur := {| kind := kind (cur st);
                              items := reduce_all (ops (cur st)) e :: items (cur st);
                              ops := [] |};
                    outer := outer st;
                    now := WantOperand |}
      | RPAR | RSQB => close_after t e st
      | STRING _ => Unmodelled          (* adjacent string literals *)
      | CONST _ | NAME _ | TILDE => Rejected
      | INDENT | ERRORTOKEN => Rejected
      end
  | WantAttr e =>
      match t with
      | NAME id => Parsed (with_operand (Attribute e id) st)
      | _ => Rejected
      end
  end.

(** The end of the input. *)
Definition finish (st : state) : outcome mod_ :=
  match outer st, kind (cur st) with
  | [], Top =>
      match now st with
      | HaveOperand e =>
          let e' := reduce_all (ops (cur st)) e in
          match items (cur st) with
          | [] => Parsed (Expression e')
          | _ :: _ => Parsed (Expression (Tuple (rev (e' :: items (cur st)))))
          end
      | WantOperand =>
          match ops (cur st), items (cur st) with
          | [], _ :: _ => Parsed (Expression (Tuple (rev (items (cur st)))))
          | _, _ => Rejected
          end
      | WantAttr _ => Rejected
      end
  | _, _ => Rejected
  end.

Fixpoint run (st : state) (ts : list token) : outcome mod_ :=
  match ts with
  | [] => finish st
  | t :: rest =>
      match step st t with
      | Parsed st' => run st' rest
      | Rejected => Rejected
      | Unmodelled => Unmodelled
      end
  end.

Definition initial : state :=
  {| cur := {| kind := Top; items := []; ops := [] |};
     outer := [];
     now := WantOperand |}.

Definition parse_tokens (ts : list token) : outcome mod_ := run initial ts.

(** [ast.parse(expr, mode="eval")]. *)
Definition parse (expr : string) : outcome mod_ :=
  match tokenize expr with
  | Some ts => parse_tokens ts
  | None => Unmodelled
  end.

End Parser.

(** ** The program: [calculator.py] *)

Module calculator.

Import ast Py.
Local Open Scope py_scope.

(** A Python [dict] literal, read by key. *)
Fixpoint dict_get {K V : Type} (eqb : K -> K -> bool) (d : list (K * V)) (k : K)
  : option V :=
  match d with
  | (k', v) :: rest => if eqb k k' then Some v else dict_get eqb rest k
  | [] => None
  end.

Section Evaluator.

Variable P : platform.

(** Mapping of AST operator nodes to the corresponding Python function. *)
Definition _ALLOWED_BIN_OPS : list (operator * (value -> value -> result value)) :=
  [ (Add, _op.add P);
    (Sub, _op.sub P);
    (Mult, _op.mul P);
    (Div, _op.truediv P);
    (FloorDiv, _op.floordiv);
    (Mod, _op.mod_);
    (Pow, _op.pow P) ].

Definition _ALLOWED_UNARY_OPS : list (unaryop * (value -> result value)) :=
  [ (UAdd, _op.pos);
    (USub, _op.neg) ].

(** [isinstance(node.value, (int, float))]: the value when it holds.  A
    [bool] is an [int]. *)
Definition int_or_float (c : constant) : option value :=
  match c with
  | CInt n => Some (VInt n)
  | CBool b => Some (VBool b)
  | CFloat x => Some (VFloat x)
  | CImag _ | CStr _ | CBytes _ | CNone | CEllipsis => None
  end.

Definition visit_Constant (node_value : constant) : result value :=
  match int_or_float node_value with
  | None => Raise (ValueError (UnsupportedConstant node_value))
  | Some v => Return v
  end.

Definition visit_BinOp (visit : expr -> result value)
    (left : expr) (op_type : operator) (right : expr) : result value :=
  match dict_get operator_eqb _ALLOWED_BIN_OPS op_type with
  | None => Raise (ValueError (UnsupportedBinaryOperator op_type))
  | Some f =>
      l <- visit left ;;
      r <- visit right ;;
      f l r
  end.

Definition visit_UnaryOp (visit : expr -> result value)
    (op_type : unaryop) (operand : expr) : result value :=
  match dict_get unaryop_eqb _ALLOWED_UNARY_OPS op_type with
  | None => Raise (ValueError (UnsupportedUnaryOperator op_type))
  | Some f =>
      v <- visit operand ;;
      f v
  end.

(** Disallow everything else. *)
Definition generic_visit (node : expr) : result value :=
  Raise (ValueError (UnsupportedComponent (class_name_of node))).

(** [NodeVisitor.visit]: the method named after the node's class, or
    [generic_visit]. *)
Fixpoint visit (node : expr) : result value :=
  match node with
  | Constant node_value => visit_Constant node_value
  | BinOp l op r => visit_BinOp visit l op r
  | UnaryOp op operand => visit_UnaryOp visit op operand
  | Name _ | Call _ _ | Attribute _ _ | List_ _ | Tuple _ | Other _ _ =>
      generic_visit node
  end.

Definition visit_Expression (node : mod_) : result value :=
  match node with
  | Expression body => visit body
  end.

(** Evaluate an arithmetic expression safely and return the result.  [None]
    when the text is outside the fragment of Python's grammar modelled
    above. *)
Definition eval_expr (expr : string) : option (result value) :=
  match Parser.parse expr with
  | Parser.Parsed parsed => Some (visit_Expression parsed)
  | Parser.Rejected => Some (Raise SyntaxError)
  | Parser.Unmodelled => None
  end.

(** *** The shells

    The keyboard is the list of what [input] returns, in order: a line, or
    the interrupt key; past its end [input] raises [EOFError].  What is
    printed is kept as events, a value or an exception standing for its
    text. *)

Inductive keyboard : Type :=
  | Line (text : string)
  | Interrupt.

Inductive written : Type :=
  | Banner                (* "Enter arithmetic expressions to evaluate. ..." *)
  | Prompt                (* "calc> " *)
  | Result (v : value)    (* print(result) *)
  | Error (e : exn)       (* print(f"Error: {exc}") *)
  | Blank.                (* print() *)

(** [str.isspace] on an ASCII character. *)
Definition isspace (c : ascii) : bool :=
  let n := Tokenizer.code c in
  ((9 <=? n) && (n <=? 13)) || ((28 <=? n) && (n <=? 32)).

Fixpoint lstrip (s : list ascii) : list ascii :=
  match s with
  | c :: r => if isspace c then lstrip r else s
  | [] => []
  end.

(** [str.strip()]. *)
Definition strip (s : string) : string :=
  string_of_list_ascii (rev (lstrip (rev (lstrip (list_ascii_of_string s))))).

(** [str.lower()] on ASCII text. *)
Definition lower_char (c : ascii) : ascii :=
  let n := Tokenizer.code c in
  if (65 <=? n) && (n <=? 90) then ascii_of_N (Z.to_N (n + 32)) else c.

Definition lower (s : string) : string :=
  string_of_list_ascii (map lower_char (list_ascii_of_string s)).

(** Text the two functions above are Python's on: ASCII only. *)
Definition is_ascii (s : string) : bool :=
  forallb (fun c => Tokenizer.code c <? 128) (list_ascii_of_string s).

(** [line.lower() in {"quit", "exit"}]. *)
Definition leaves (line : string) : bool :=
  String.eqb (lower line) "quit" || String.eqb (lower line) "exit".

(** The loop of [_repl]: what it writes, [None] when a line is outside the
    modelled fragment. *)
Fixpoint repl_loop (keys : list keyboard) : option (list written) :=
  match keys with
  | [] | Interrupt :: _ => Some [Prompt; Blank]
  | Line text :: rest =>
      if negb (is_ascii text) then None
      else
        let line := strip text in
        if leaves line then Some [Prompt]
        else if String.eqb line "" then option_map (cons Prompt) (repl_loop rest)
        else
          match eval_expr line with
          | Some (Return result) =>
              option_map (fun out => Prompt :: Result result :: out) (repl_loop rest)
          | Some (Raise exc) =>
              option_map (fun out => Prompt :: Error exc :: out) (repl_loop rest)
          | None => None
          end
  end.

(** Start an interactive Read-Eval-Print Loop (REPL). *)
Definition _repl (keys : list keyboard) : option (list written) :=
  option_map (cons Banner) (repl_loop keys).

(** How a run of the command ends. *)
Inductive ran : Type :=
  | Printed (v : value)              (* print(eval_expr(expression)) *)
  | Exited (e : exn)                 (* sys.exit(f"Error: {exc}") *)
  | Shell (out : list written).      (* _repl() *)

(** Entry point for the command-line interface; [argv] is the list the
    function settles on, [sys.argv[1:]] by default. *)
Definition main (argv : list string) (keys : list keyboard) : option ran :=
  match argv with
  | _ :: _ =>
      let expression := String.concat " " argv in
      match eval_expr expression with
      | Some (Return v) => Some (Printed v)
      | Some (Raise exc) => Some (Exited exc)
      | None => None
      end
  | [] => option_map Shell (_repl keys)
  end.

End Evaluator.

End calculator.

(** ** The vocabulary of the specification *)

Module Spec.

Import Py.

(** The four error kinds of the specification's taxonomy. *)
Inductive error_kind : Type :=
  | SyntaxErrorKind
  | UnsupportedConstructError
  | DivisionByZeroError
  | ArithmeticDomainError.

(** The kind each Python exception of the program falls under.  The program
    defines no exception of its own: its [ValueError]s are the unsupported
    constructs, Python's [ZeroDivisionError] the division by zero, and
    [OverflowError], a result beyond the range of floats, is read as the
    arithmetic domain error.  [TypeError] falls under none. *)
Definition error_kind_of (e : exn) : option error_kind :=
  match e with
  | SyntaxError => Some SyntaxErrorKind
  | ValueError _ => Some UnsupportedConstructError
  | ZeroDivisionError => Some DivisionByZeroError
  | OverflowError => Some ArithmeticDomainError
  | TypeError => None
  end.

(** A numeric value of the specification: an integer or a float. *)
Definition numeric (v : value) : bool :=
  match v with
  | VInt _ | VFloat _ => true
  | VBool _ | VComplex _ => false
  end.

End Spec.

(** ** Predicates the properties are stated with *)

Module Shape.

Import ast Py Tokenizer.

(** An expression made of number literals and the nine operators only. *)
Fixpoint arithmetic (t : expr) : bool :=
  match t with
  | Constant (CInt _) | Constant (CFloat _) => true
  | BinOp l (Add | Sub | Mult | Div | FloorDiv | Mod | Pow) r =>
      arithmetic l && arithmetic r
  | UnaryOp (UAdd | USub) e => arithmetic e
  | _ => false
  end.

(** An expression the visitor walks into a name, a call, an attribute
    access or a collection (or any other class it has no method for). *)
Fixpoint mentions_unsupported (t : expr) : bool :=
  match t with
  | Constant _ => false
  | BinOp l _ r => mentions_unsupported l || mentions_unsupported r
  | UnaryOp _ e => mentions_unsupported e
  | Name _ | Call _ _ | Attribute _ _ | List_ _ | Tuple _ | Other _ _ => true
  end.

(** No [True] or [False] among the literals the visitor reaches. *)
Fixpoint no_bool_literal (t : expr) : bool :=
  match t with
  | Constant (CBool _) => false
  | BinOp l _ r => no_bool_literal l && no_bool_literal r
  | UnaryOp _ e => no_bool_literal e
  | _ => true
  end.

(** The nodes the visitor reaches in [t]: [t] itself and, through the binary
    and unary operations, its operands. *)
Fixpoint walked (t : expr) : list expr :=
  t :: match t with
       | BinOp l _ r => walked l ++ walked r
       | UnaryOp _ e => walked e
       | _ => []
       end.

(** The three operators that divide. *)
Definition divides (op : operator) : bool :=
  match op with
  | Div | FloorDiv | Mod => true
  | _ => false
  end.

(** The exceptions arithmetic raises. *)
Definition arithmetic_error (e : exn) : bool :=
  match e with
  | ZeroDivisionError | OverflowError | TypeError => true
  | SyntaxError | ValueError _ => false
  end.

(** A result of arithmetic: a number that is no [bool], or an arithmetic
    error. *)
Definition arithmetic_result (r : result value) : bool :=
  match r with
  | Return v => negb (is_bool v)
  | Raise e => arithmetic_error e
  end.

(** The visitor's own failures are [ValueError]s; the rest comes from the
    arithmetic. *)
Definition visitor_result (r : result value) : Prop :=
  match r with
  | Return _ => True
  | Raise e => (exists w, e = ValueError w) \/ arithmetic_error e = true
  end.

(** The parentheses of a token list match: [depth] are open before it. *)
Fixpoint parens_balanced (depth : nat) (ts : list token) : bool :=
  match ts with
  | [] => Nat.eqb depth 0
  | LPAR :: rest => parens_balanced (S depth) rest
  | RPAR :: rest =>
      match depth with
      | O => false
      | S d => parens_balanced d rest
      end
  | _ :: rest => parens_balanced depth rest
  end.

(** The parentheses the parser holds open. *)
Definition is_paren (f : Parser.frame) : bool :=
  match Parser.kind f with
  | Parser.Group | Parser.Arguments _ => true
  | Parser.Top | Parser.Display => false
  end.

Definition open_parens (st : Parser.state) : nat :=
  List.length (List.filter is_paren (Parser.cur st :: Parser.outer st)).

(** A zero of type [int], [bool] or [float]. *)
Definition zero_divisor (v : value) : bool :=
  match v with
  | VInt 0 => true
  | VBool false => true
  | VFloat (S754_zero _) => true
  | _ => false
  end.

(** A float, or an integer within the range of floats. *)
Definition fits_float (v : value) : bool :=
  match _op.as_float v with
  | Return _ => true
  | Raise _ => false
  end.

(** A dividend the division by a zero can be attempted on: an integer over
    an integer, or anything [float] can hold. *)
Definition dividend_ok (vl vr : value) : bool :=
  (is_int vl && is_int vr) || fits_float vl.

(** A float below zero that is no infinity. *)
Definition negative_finite (x : Float64.float) : bool :=
  Float64.ltb x Float64.zero && negb (Float64.is_inf x).

(** A float with a fractional part: a number that is not its own floor. *)
Definition fractional (y : Float64.float) : bool :=
  negb (Float64.is_nan y) && negb (Float64.is_integral y).

(** What Python makes of the complex power routine's answer. *)
Definition complex_power_outcome (r : complex * errno) : result value :=
  match r with
  | (p, ENone) => Return (VComplex p)
  | (_, EDOM) => Raise ZeroDivisionError
  | (_, ERANGE) => Raise OverflowError
  end.

(** The trees of ["(-8) ** 0.5"] and of ["(-8) ** 0.5 // 1"]. *)
Definition minus_eight_to_the_half : expr :=
  BinOp (UnaryOp USub (Constant (CInt 8))) Pow
        (Constant (CFloat (Float64.of_decimal 5 (-1)))).

Definition floor_of_a_complex : expr :=
  BinOp minus_eight_to_the_half FloorDiv (Constant (CInt 1)).

(** The operators of the two tables, listed on their own. *)
Definition allowed_binary (op : operator) : bool :=
  match op with
  | Add | Sub | Mult | Div | FloorDiv | Mod | Pow => true
  | MatMult | LShift | RShift | BitOr | BitXor | BitAnd => false
  end.

Definition allowed_unary (op : unaryop) : bool :=
  match op with
  | UAdd | USub => true
  | Invert | Not => false
  end.

(** A tree made of what the evaluator allows: integer, boolean and float
    constants, the seven binary and the two unary operators. *)
Fixpoint allow_listed (t : expr) : bool :=
  match t with
  | Constant (CInt _ | CBool _ | CFloat _) => true
  | BinOp l op r => allowed_binary op && allow_listed l && allow_listed r
  | UnaryOp op e => allowed_unary op && allow_listed e
  | _ => false
  end.

(** The node a [ValueError] speaks of. *)
Definition blamed (w : unsupported) (s : expr) : Prop :=
  match w with
  | UnsupportedConstant c =>
      s = Constant c
      /\ match c with CInt _ | CBool _ | CFloat _ => False | _ => True end
  | UnsupportedBinaryOperator op =>
      (exists l r, s = BinOp l op r) /\ allowed_binary op = false
  | UnsupportedUnaryOperator op =>
      (exists e, s = UnaryOp op e) /\ allowed_unary op = false
  | UnsupportedComponent name =>
      class_name_of s = name
      /\ match s with
         | Constant _ | BinOp _ _ _ | UnaryOp _ _ => False
         | _ => True
         end
  end.

(** The integer an expression of integer literals denotes: [//] is the
    floored quotient and [%] the remainder with the sign of the divisor;
    nothing for a zero divisor, a negative exponent or any other node. *)
Fixpoint int_denote (t : expr) : option Z :=
  match t with
  | Constant (CInt n) => Some n
  | UnaryOp UAdd e => int_denote e
  | UnaryOp USub e => option_map Z.opp (int_denote e)
  | BinOp l op r =>
      match int_denote l, int_denote r with
      | Some a, Some b =>
          match op with
          | Add => Some (a + b)
          | Sub => Some (a - b)
          | Mult => Some (a * b)
          | FloorDiv => if b =? 0 then None else Some (a / b)
          | Mod => if b =? 0 then None else Some (a mod b)
          | Pow => if b <? 0 then None else Some (a ^ b)
          | _ => None
          end
      | _, _ => None
      end
  | _ => None
  end.

(** A line the shell answers: ASCII, not blank, not a leave-taking. *)
Definition answerable (text : string) : bool :=
  calculator.is_ascii text
  && negb (calculator.leaves (calculator.strip text))
  && negb (String.eqb (calculator.strip text) "").

(** What the shell writes for an answerable line. *)
Definition answer (P : platform) (text : string) : option calculator.written :=
  match calculator.eval_expr P (calculator.strip text) with
  | Some (Return v) => Some (calculator.Result v)
  | Some (Raise e) => Some (calculator.Error e)
  | None => None
  end.

(** The prompts and answers of a run of answerable lines. *)
Fixpoint dialogue (P : platform) (texts : list string)
  : option (list calculator.written) :=
  match texts with
  | [] => Some []
  | text :: rest =>
      match answer P text, dialogue P rest with
      | Some a, Some out => Some (calculator.Prompt :: a :: out)
      | _, _ => None
      end
  end.

(** Python's reading of [a o1 b o2 c]: [**] binds tightest and groups to
    the right; [*], [/], [//], [%] and [@] bind tighter than [+] and [-];
    operators of one level group to the left. *)
Definition groups_left (o1 o2 : operator) : bool :=
  match o2 with
  | Pow => false
  | Add | Sub => true
  | _ => match o1 with Add | Sub => false | _ => true end
  end.

(** A parser state with one more parenthesis open around everything. *)
Definition regroup (f : Parser.frame) : Parser.frame :=
  match Parser.kind f with
  | Parser.Top =>
      {| Parser.kind := Parser.Group;
         Parser.items := Parser.items f;
         Parser.ops := Parser.ops f |}
  | _ => f
  end.






(** A platform whose routines report no error: one exists. *)
Definition quiet_platform : platform :=
  {| libm_pow := fun _ _ => Float64.nan;
     c_sum := fun x _ => x;
     c_diff := fun x _ => x;
     c_prod := fun x _ => x;
     c_quot := fun x _ => x;
     c_pow := fun x _ => (x, ENone) |}.

End Shape.

(** ** Results of the [operator] functions *)

Import ast Py Tokenizer Shape.
Local Open Scope py_scope.

Lemma float_of_int_error (n : Z) (e : exn) :
  _op.float_of_int n = Raise e -> e = OverflowError.
Proof.
  unfold _op.float_of_int.
  destruct (Float64.is_inf (Float64.of_Z n)); congruence.
Qed.

Lemma as_float_error (v : value) (e : exn) :
  _op.as_float v = Raise e -> arithmetic_error e = true.
Proof.
  destruct v as [n | b | x | c]; simpl; intros H.
  - apply float_of_int_error in H. now subst.
  - apply float_of_int_error in H. now subst.
  - discriminate.
  - injection H as <-. reflexivity.
Qed.

Lemma as_complex_error (v : value) (e : exn) :
  _op.as_complex v = Raise e -> arithmetic_error e = true.
Proof.
  assert (H : forall w, bind (_op.as_float w) (fun x => Return (x, Float64.zero)) = Raise e ->
                        arithmetic_error e = true).
  { intros w. destruct (_op.as_float w) as [y | e'] eqn:E; simpl; intros H.
    - discriminate.
    - injection H as <-. eapply as_float_error; eassumption. }
  destruct v as [n | b | x | c]; try apply H. discriminate.
Qed.

(** The two conversions either succeed or raise an arithmetic error. *)
Ltac convert v :=
  let x := fresh "x" in
  let e := fresh "e" in
  let E := fresh "E" in
  match goal with
  | |- context [_op.as_float v] =>
      destruct (_op.as_float v) as [x | e] eqn:E; simpl;
      [ | exact (as_float_error _ _ E) ]
  | |- context [_op.as_complex v] =>
      destruct (_op.as_complex v) as [x | e] eqn:E; simpl;
      [ | exact (as_complex_error _ _ E) ]
  end.

Section OperatorResults.

Variable P : platform.

Lemma add_result (a b : value) : arithmetic_result (_op.add P a b) = true.
Proof.
  unfold _op.add. destruct (_op.coerce a b); simpl; trivial;
    convert a; convert b; reflexivity.
Qed.

Lemma sub_result (a b : value) : arithmetic_result (_op.sub P a b) = true.
Proof.
  unfold _op.sub. destruct (_op.coerce a b); simpl; trivial;
    convert a; convert b; reflexivity.
Qed.

Lemma mul_result (a b : value) : arithmetic_result (_op.mul P a b) = true.
Proof.
  unfold _op.mul. destruct (_op.coerce a b); simpl; trivial;
    convert a; convert b; reflexivity.
Qed.

Lemma int_true_divide_result (m n : Z) :
  arithmetic_result (_op.int_true_divide m n) = true.
Proof.
  unfold _op.int_true_divide.
  destruct (n =? 0); trivial.
  destruct m; trivial;
    match goal with
    | |- context [Float64.is_inf ?x] => destruct (Float64.is_inf x)
    end; reflexivity.
Qed.

Lemma truediv_result (a b : value) : arithmetic_result (_op.truediv P a b) = true.
Proof.
  unfold _op.truediv. destruct (_op.coerce a b); simpl.
  - apply int_true_divide_result.
  - convert a. convert b. destruct (Float64.is_zero x0); reflexivity.
  - convert a. convert b. destruct (_op.complex_is_zero x0); reflexivity.
Qed.

Lemma floordiv_result (a b : value) : arithmetic_result (_op.floordiv a b) = true.
Proof.
  unfold _op.floordiv. destruct (_op.coerce a b); simpl; trivial.
  - destruct (n =? 0); reflexivity.
  - convert a. convert b. destruct (Float64.is_zero x0); reflexivity.
Qed.

Lemma mod_result (a b : value) : arithmetic_result (_op.mod_ a b) = true.
Proof.
  unfold _op.mod_. destruct (_op.coerce a b); simpl; trivial.
  - destruct (n =? 0); reflexivity.
  - convert a. convert b. destruct (Float64.is_zero x0); reflexivity.
Qed.

Lemma complex_pow_result (x y : complex) :
  arithmetic_result (_op.complex_pow P x y) = true.
Proof.
  unfold _op.complex_pow. destruct (c_pow P x y) as [p []]; reflexivity.
Qed.

Lemma float_pow_result (x y : Float64.float) :
  arithmetic_result (_op.float_pow P x y) = true.
Proof.
  unfold _op.float_pow.
  repeat match goal with
         | |- arithmetic_result (if ?c then _ else _) = true => destruct c
         | |- arithmetic_result (let _ := _ in _) = true => cbv zeta
         end;
    try reflexivity; apply complex_pow_result.
Qed.

Lemma int_pow_result (m n : Z) : arithmetic_result (_op.int_pow P m n) = true.
Proof.
  unfold _op.int_pow. destruct (n <? 0); trivial.
  destruct (_op.float_of_int m) as [x | e] eqn:Em; simpl.
  - destruct (_op.float_of_int n) as [y | e] eqn:En; simpl.
    + apply float_pow_result.
    + apply float_of_int_error in En. now subst.
  - apply float_of_int_error in Em. now subst.
Qed.

Lemma pow_result (a b : value) : arithmetic_result (_op.pow P a b) = true.
Proof.
  unfold _op.pow. destruct (_op.coerce a b); simpl.
  - apply int_pow_result.
  - convert a. convert b. apply float_pow_result.
  - convert a. convert b. apply complex_pow_result.
Qed.

Lemma pos_result (a : value) : arithmetic_result (_op.pos a) = true.
Proof. destruct a; reflexivity. Qed.

Lemma neg_result (a : value) : arithmetic_result (_op.neg a) = true.
Proof. destruct a; reflexivity. Qed.

(** Every function of [_ALLOWED_BIN_OPS] answers with a number that is no
    [bool] or with an arithmetic error. *)
Lemma allowed_bin_op_result (op : operator) (f : value -> value -> result value)
    (a b : value) :
  calculator.dict_get operator_eqb (calculator._ALLOWED_BIN_OPS P) op = Some f ->
  arithmetic_result (f a b) = true.
Proof.
  destruct op; simpl; intros H; try discriminate; injection H as <-.
  - apply add_result.
  - apply sub_result.
  - apply mul_result.
  - apply truediv_result.
  - apply mod_result.
  - apply pow_result.
  - apply floordiv_result.
Qed.

Lemma allowed_unary_op_result (op : unaryop) (f : value -> result value)
    (a : value) :
  calculator.dict_get unaryop_eqb calculator._ALLOWED_UNARY_OPS op = Some f ->
  arithmetic_result (f a) = true.
Proof.
  destruct op; simpl; intros H; try discriminate; injection H as <-.
  - apply pos_result.
  - apply neg_result.
Qed.

End OperatorResults.

(** ** The visitor *)

Section Visitor.

Variable P : platform.

Lemma bind_raise {A B : Type} (r : result A) (k : A -> result B) (e : exn) :
  r = Raise e -> bind r k = Raise e.
Proof. intros ->. reflexivity. Qed.

Lemma visit_result (t : expr) : visitor_result (calculator.visit P t).
Proof.
  induction t as [c | l IHl op r IHr | op e IHe | | | | | | ]; simpl;
    try (left; eexists; reflexivity).
  - unfold calculator.visit_Constant.
    destruct (calculator.int_or_float c); simpl; trivial.
    left. eexists. reflexivity.
  - unfold calculator.visit_BinOp.
    destruct (calculator.dict_get operator_eqb (calculator._ALLOWED_BIN_OPS P) op)
      as [f | ] eqn:Ef.
    + destruct (calculator.visit P l) as [vl | el]; simpl; trivial.
      destruct (calculator.visit P r) as [vr | er]; simpl; trivial.
      pose proof (allowed_bin_op_result P op f vl vr Ef) as H.
      destruct (f vl vr); simpl in *; auto.
    + simpl. left. eexists. reflexivity.
  - unfold calculator.visit_UnaryOp.
    destruct (calculator.dict_get unaryop_eqb calculator._ALLOWED_UNARY_OPS op)
      as [f | ] eqn:Ef.
    + destruct (calculator.visit P e) as [v | ee]; simpl; trivial.
      pose proof (allowed_unary_op_result op f v Ef) as H.
      destruct (f v); simpl in *; auto.
    + simpl. left. eexists. reflexivity.
Qed.

(** Walking into an unsupported node raises, whatever surrounds it. *)
Lemma visit_unsupported (t : expr) :
  mentions_unsupported t = true -> exists e, calculator.visit P t = Raise e.
Proof.
  induction t as [c | l IHl op r IHr | op e IHe | | | | | | ]; simpl; intros H;
    try (eexists; reflexivity); try discriminate.
  - unfold calculator.visit_BinOp.
    destruct (calculator.dict_get operator_eqb (calculator._ALLOWED_BIN_OPS P) op)
      as [f | ]; [ | eexists; reflexivity ].
    destruct (calculator.visit P l) as [vl | el] eqn:El; simpl;
      [ | eexists; reflexivity ].
    apply orb_true_iff in H as [H | H].
    + destruct (IHl H) as [e He]. discriminate.
    + destruct (IHr H) as [e ->]. eexists. reflexivity.
  - unfold calculator.visit_UnaryOp.
    destruct (calculator.dict_get unaryop_eqb calculator._ALLOWED_UNARY_OPS op)
      as [f | ]; [ | eexists; reflexivity ].
    destruct (IHe H) as [e' ->]. eexists. reflexivity.
Qed.

(** On literals and the nine operators the visitor itself never fails. *)
Lemma visit_arithmetic (t : expr) :
  arithmetic t = true -> arithmetic_result (calculator.visit P t) = true.
Proof.
  induction t as [c | l IHl op r IHr | op e IHe | | | | | | ]; simpl; intros H;
    try discriminate.
  - destruct c; try discriminate; reflexivity.
  - unfold calculator.visit_BinOp.
    destruct (calculator.dict_get operator_eqb (calculator._ALLOWED_BIN_OPS P) op)
      as [f | ] eqn:Ef.
    + assert (Hlr : arithmetic l = true /\ arithmetic r = true)
        by (destruct op; try discriminate; now apply andb_true_iff).
      destruct Hlr as [Hl Hr]. specialize (IHl Hl). specialize (IHr Hr).
      destruct (calculator.visit P l) as [vl | el]; simpl; trivial.
      destruct (calculator.visit P r) as [vr | er]; simpl; trivial.
      exact (allowed_bin_op_result P op f vl vr Ef).
    + destruct op; discriminate.
  - unfold calculator.visit_UnaryOp.
    destruct (calculator.dict_get unaryop_eqb calculator._ALLOWED_UNARY_OPS op)
      as [f | ] eqn:Ef.
    + assert (He : arithmetic e = true) by (destruct op; try discriminate; exact H).
      specialize (IHe He).
      destruct (calculator.visit P e) as [v | ee]; simpl; trivial.
      exact (allowed_unary_op_result op f v Ef).
    + destruct op; discriminate.
Qed.

(** Without a [bool] literal no value is a [bool]. *)
Lemma visit_no_bool (t : expr) (v : value) :
  no_bool_literal t = true -> calculator.visit P t = Return v -> is_bool v = false.
Proof.
  destruct t as [c | l op r | op e | | | | | | ]; simpl; intros H Hv;
    try discriminate.
  - destruct c; try discriminate; injection Hv as <-; reflexivity.
  - unfold calculator.visit_BinOp in Hv.
    destruct (calculator.dict_get operator_eqb (calculator._ALLOWED_BIN_OPS P) op)
      as [f | ] eqn:Ef; [ | discriminate ].
    destruct (calculator.visit P l) as [vl | el]; simpl in Hv; [ | discriminate ].
    destruct (calculator.visit P r) as [vr | er]; simpl in Hv; [ | discriminate ].
    pose proof (allowed_bin_op_result P op f vl vr Ef) as H'.
    rewrite Hv in H'. simpl in H'. now apply negb_true_iff.
  - unfold calculator.visit_UnaryOp in Hv.
    destruct (calculator.dict_get unaryop_eqb calculator._ALLOWED_UNARY_OPS op)
      as [f | ] eqn:Ef; [ | discriminate ].
    destruct (calculator.visit P e) as [w | ee]; simpl in Hv; [ | discriminate ].
    pose proof (allowed_unary_op_result op f w Ef) as H'.
    rewrite Hv in H'. simpl in H'. now apply negb_true_iff.
Qed.

Lemma walked_no_bool (t s : expr) :
  no_bool_literal t = true -> In s (walked t) -> no_bool_literal s = true.
Proof.
  induction t as [c | l IHl op r IHr | op e IHe | | | | | | ]; simpl;
    intros H [<- | Hin]; trivial; try contradiction.
  - apply andb_true_iff in H as [Hl Hr].
    apply in_app_or in Hin as [Hin | Hin]; auto.
  - auto.
Qed.

End Visitor.

(** ** The parser keeps count of the parentheses *)

Lemma close_bracket_parens (e : expr) (st st' : Parser.state) :
  Parser.close_bracket e st = Parser.Parsed st' ->
  open_parens st =
    (if is_paren (Parser.cur st) then S (open_parens st') else open_parens st').
Proof.
  unfold Parser.close_bracket, open_parens.
  destruct st as [c out md]; simpl.
  destruct out as [ | f fs]; [ discriminate | ].
  intros H. injection H as <-. simpl.
  destruct (is_paren c); reflexivity.
Qed.

(** One token changes the number of open parentheses as the token says. *)
Lemma step_parens (st st' : Parser.state) (t : token) :
  Parser.step st t = Parser.Parsed st' ->
  match t with
  | LPAR => open_parens st' = S (open_parens st)
  | RPAR => open_parens st = S (open_parens st')
  | _ => open_parens st' = open_parens st
  end.
Proof.
  destruct st as [[k it ws] out md].
  unfold Parser.step; simpl.
  destruct md as [ | e | e]; destruct t; simpl; intros H;
    try discriminate;
    try (injection H as <-; destruct k; reflexivity).
  all: try (destruct (Parser.reduce _ ws e) as [ws' e'];
            injection H as <-; destruct k; reflexivity).
  all: unfold Parser.close_empty, Parser.close_after in H; simpl in H;
    repeat match type of H with
           | match ?x with _ => _ end = _ => destruct x; try discriminate
           end;
    apply close_bracket_parens in H; simpl in H; unfold is_paren in H;
    simpl in H; congruence.
Qed.

Lemma finish_parens (st : Parser.state) (m : mod_) :
  Parser.finish st = Parser.Parsed m -> open_parens st = O.
Proof.
  destruct st as [[k it ws] out md]. unfold Parser.finish, open_parens; simpl.
  destruct out; [ | discriminate ].
  destruct k; try discriminate. reflexivity.
Qed.

(** What the parser accepts has matching parentheses. *)
Lemma run_parens (ts : list token) (st : Parser.state) (m : mod_) :
  Parser.run st ts = Parser.Parsed m ->
  parens_balanced (open_parens st) ts = true.
Proof.
  revert st. induction ts as [ | t ts IH]; intros st H; simpl in H.
  - apply finish_parens in H. rewrite H. reflexivity.
  - destruct (Parser.step st t) as [st' | | ] eqn:Es; try discriminate.
    specialize (IH st' H). apply step_parens in Es.
    destruct t; simpl; try (rewrite <- Es; exact IH).
    rewrite Es. exact IH.
Qed.

(** ** The power of a negative base to a fractional exponent *)

Lemma float_pow_complex (P : platform) (x y : Float64.float) :
  negative_finite x = true ->
  fractional y = true ->
  _op.float_pow P x y = _op.complex_pow P (x, Float64.zero) (y, Float64.zero).
Proof.
  unfold negative_finite, fractional. intros Hx Hy.
  apply andb_true_iff in Hx as [Hlt Hinf].
  apply andb_true_iff in Hy as [Hnan Hint].
  apply negb_true_iff in Hinf, Hnan, Hint.
  assert (Hy0 : Float64.is_zero y = false)
    by (destruct y; try reflexivity; discriminate Hint).
  assert (Hyi : Float64.is_inf y = false).
  { destruct y as [ | [ | ] | | ]; try reflexivity; discriminate Hint. }
  assert (Hxn : Float64.is_nan x = false)
    by (destruct x; try reflexivity; discriminate Hlt).
  assert (Hx0 : Float64.is_zero x = false)
    by (destruct x; try reflexivity; discriminate Hlt).
  unfold _op.float_pow.
  rewrite Hy0, Hxn, Hnan, Hyi, Hinf, Hx0, Hlt, Hint. reflexivity.
Qed.

Lemma complex_pow_outcome (P : platform) (x y : complex) :
  _op.complex_pow P x y = complex_power_outcome (c_pow P x y).
Proof.
  unfold _op.complex_pow, complex_power_outcome.
  destruct (c_pow P x y) as [p []]; reflexivity.
Qed.

Lemma visit_minus_eight_to_the_half (P : platform) :
  calculator.visit P minus_eight_to_the_half
  = complex_power_outcome
      (c_pow P (Float64.of_Z (-8), Float64.zero)
               (Float64.of_decimal 5 (-1), Float64.zero)).
Proof.
  rewrite <- complex_pow_outcome.
  rewrite <- (float_pow_complex P (Float64.of_Z (-8)) (Float64.of_decimal 5 (-1)))
    by (vm_compute; reflexivity).
  reflexivity.
Qed.

(** ** Number literals through the tokenizer *)

Lemma option_map_app_nil {A : Type} (o : option (list A)) :
  option_map (app []) o = o.
Proof. destruct o; reflexivity. Qed.












(** ** The claims *)

Local Open Scope string_scope.
Local Open Scope Z_scope.

(** C1 (as amended).  An expression in which the visitor reaches an
    identifier, a call, an attribute access or a collection never returns a
    value: evaluation fails, with the [ValueError] of the unsupported
    construct or, when an operand evaluated before it has already failed,
    with that operand's arithmetic error.  ["x + 1"], ["__import__('os')"]
    and ["[1,2]"] fail with the [ValueError] naming [Name], [Call] and
    [List]. *)
Theorem C1_unsupported_constructs_never_return
    (P : platform) (s : string) (t : expr) :
  Parser.parse s = Parser.Parsed (Expression t) ->
  mentions_unsupported t = true ->
  (exists e, calculator.eval_expr P s = Some (Raise e)
             /\ ((exists w, e = ValueError w) \/ arithmetic_error e = true))
  /\ calculator.eval_expr P "x + 1"
     = Some (Raise (ValueError (UnsupportedComponent "Name")))
  /\ calculator.eval_expr P "__import__('os')"
     = Some (Raise (ValueError (UnsupportedComponent "Call")))
  /\ calculator.eval_expr P "[1,2]"
     = Some (Raise (ValueError (UnsupportedComponent "List"))).
Proof.
  intros Hs Ht. split; [ | repeat split; vm_compute; reflexivity ].
  unfold calculator.eval_expr. rewrite Hs. simpl.
  destruct (visit_unsupported P t Ht) as [e He].
  exists e. split; [ now rewrite He | ].
  pose proof (visit_result P t) as H. rewrite He in H. exact H.
Qed.

Lemma C1_witness :
  Parser.parse "x + 1"
    = Parser.Parsed (Expression (BinOp (Name "x") Add (Constant (CInt 1))))
  /\ mentions_unsupported (BinOp (Name "x") Add (Constant (CInt 1))) = true
  /\ forall P : platform,
       exists e, calculator.eval_expr P "x + 1" = Some (Raise e)
                 /\ ((exists w, e = ValueError w) \/ arithmetic_error e = true).
Proof.
  split; [ vm_compute; reflexivity | split; [ reflexivity | ] ].
  intros P.
  exact (proj1 (C1_unsupported_constructs_never_return P "x + 1"
                  (BinOp (Name "x") Add (Constant (CInt 1))) eq_refl eq_refl)).
Defined.

(** C1 as stated fails: ["1/0 + x"] contains an identifier and fails with
    [ZeroDivisionError], the division being evaluated before the name is
    reached. *)
Lemma C1_counterexample :
  exists t : expr,
    Parser.parse "1/0 + x" = Parser.Parsed (Expression t)
    /\ mentions_unsupported t = true
    /\ (forall P : platform,
          calculator.eval_expr P "1/0 + x" = Some (Raise ZeroDivisionError))
    /\ Spec.error_kind_of ZeroDivisionError = Some Spec.DivisionByZeroError.
Proof.
  eexists. split; [ vm_compute; reflexivity | ].
  split; [ reflexivity | split; [ intros P; vm_compute; reflexivity | reflexivity ] ].
Qed.

(** C2 (as amended).  Exponentiation binds tighter than a unary operator on
    its left: ["- a ** b"] is read as [-(a ** b)], so ["-2 ** 2"] evaluates
    to [-4], while ["(-2) ** 2"] evaluates to [4]. *)
Theorem C2_power_binds_tighter_than_unary_minus (P : platform) (a b : Z) :
  0 <= b ->
  Parser.parse_tokens [MINUS; CONST (CInt a); DOUBLESTAR; CONST (CInt b)]
    = Parser.Parsed
        (Expression (UnaryOp USub (BinOp (Constant (CInt a)) Pow (Constant (CInt b)))))
  /\ calculator.visit P
       (UnaryOp USub (BinOp (Constant (CInt a)) Pow (Constant (CInt b))))
     = Return (VInt (- a ^ b))
  /\ calculator.eval_expr P "-2 ** 2" = Some (Return (VInt (-4)))
  /\ calculator.eval_expr P "(-2) ** 2" = Some (Return (VInt 4)).
Proof.
  intros Hb. split; [ reflexivity | ].
  split; [ | split; vm_compute; reflexivity ].
  unfold calculator.visit, calculator.visit_UnaryOp, calculator.visit_BinOp,
    calculator.visit_Constant; simpl.
  cbv [_op.pow _op.coerce _op.as_int _op.int_pow].
  destruct (Z.ltb_spec b 0) as [Hlt | _]; [ lia | ]. reflexivity.
Qed.

Lemma C2_witness :
  0 <= 2
  /\ forall P : platform,
       calculator.visit P
         (UnaryOp USub (BinOp (Constant (CInt 2)) Pow (Constant (CInt 2))))
       = Return (VInt (- 2 ^ 2)).
Proof.
  split; [ lia | ].
  intros P.
  destruct (C2_power_binds_tighter_than_unary_minus P 2 2) as (_ & H & _);
    [ lia | exact H ].
Defined.

(** C2 as stated fails: ["-2 ** 2"] is the negation of [2 ** 2], not the
    square of [-2]. *)
Lemma C2_counterexample :
  Parser.parse "-2 ** 2"
    = Parser.Parsed
        (Expression (UnaryOp USub (BinOp (Constant (CInt 2)) Pow (Constant (CInt 2)))))
  /\ (forall P : platform,
        calculator.eval_expr P "-2 ** 2" = Some (Return (VInt (-4))))
  /\ (forall P : platform,
        calculator.eval_expr P "(-2) ** 2" = Some (Return (VInt 4))).
Proof.
  split; [ vm_compute; reflexivity | ].
  split; intros P; vm_compute; reflexivity.
Qed.

(** C3 (as amended).  Evaluating an expression made of number literals and
    the nine operators ends: in an integer, a float or a complex number, or
    in [ZeroDivisionError], [OverflowError] or [TypeError]. *)
Theorem C3_arithmetic_ends_in_a_number_or_an_arithmetic_error
    (P : platform) (s : string) (t : expr) :
  Parser.parse s = Parser.Parsed (Expression t) ->
  arithmetic t = true ->
  exists r, calculator.eval_expr P s = Some r
            /\ match r with
               | Return v => is_bool v = false
               | Raise e =>
                   e = ZeroDivisionError \/ e = OverflowError \/ e = TypeError
               end.
Proof.
  intros Hs Ht. unfold calculator.eval_expr. rewrite Hs. simpl.
  eexists. split; [ reflexivity | ].
  pose proof (visit_arithmetic P t Ht) as H.
  destruct (calculator.visit P t) as [v | e]; simpl in H.
  - now apply negb_true_iff.
  - destruct e; try discriminate; auto.
Qed.

Lemma C3_witness :
  Parser.parse "2 + 3 * 4"
    = Parser.Parsed
        (Expression (BinOp (Constant (CInt 2)) Add
                       (BinOp (Constant (CInt 3)) Mult (Constant (CInt 4)))))
  /\ arithmetic (BinOp (Constant (CInt 2)) Add
                   (BinOp (Constant (CInt 3)) Mult (Constant (CInt 4)))) = true
  /\ forall P : platform,
       exists r, calculator.eval_expr P "2 + 3 * 4" = Some r
                 /\ match r with
                    | Return v => is_bool v = false
                    | Raise e =>
                        e = ZeroDivisionError \/ e = OverflowError \/ e = TypeError
                    end.
Proof.
  split; [ vm_compute; reflexivity | split; [ reflexivity | ] ].
  intros P.
  apply (C3_arithmetic_ends_in_a_number_or_an_arithmetic_error P "2 + 3 * 4"
           (BinOp (Constant (CInt 2)) Add
              (BinOp (Constant (CInt 3)) Mult (Constant (CInt 4)))));
    [ vm_compute; reflexivity | reflexivity ].
Defined.

(** C3 as stated fails: ["(-8) ** 0.5 // 1"] is made of literals and
    operators only; the power is complex wherever the platform's complex
    power reports no error (as it does on these operands), and the floor
    division of a complex number raises [TypeError], which is none of the
    four error kinds. *)
Lemma C3_counterexample :
  exists t : expr,
    Parser.parse "(-8) ** 0.5 // 1" = Parser.Parsed (Expression t)
    /\ arithmetic t = true
    /\ (forall (P : platform) (p : complex),
          c_pow P (Float64.of_Z (-8), Float64.zero)
                  (Float64.of_decimal 5 (-1), Float64.zero) = (p, ENone) ->
          calculator.eval_expr P "(-8) ** 0.5 // 1" = Some (Raise TypeError))
    /\ calculator.eval_expr quiet_platform "(-8) ** 0.5 // 1"
       = Some (Raise TypeError)
    /\ Spec.error_kind_of TypeError = None.
Proof.
  exists floor_of_a_complex. split; [ vm_compute; reflexivity | ].
  split; [ reflexivity | ].
  split; [ | split; [ vm_compute; reflexivity | reflexivity ] ].
  intros P p H. unfold calculator.eval_expr.
  replace (Parser.parse "(-8) ** 0.5 // 1")
    with (Parser.Parsed (Expression floor_of_a_complex))
    by (vm_compute; reflexivity).
  unfold calculator.visit_Expression, floor_of_a_complex.
  change (Some (bind (calculator.visit P minus_eight_to_the_half)
                  (fun l => _op.floordiv l (VInt 1))) = Some (Raise TypeError)).
  rewrite visit_minus_eight_to_the_half, H. reflexivity.
Qed.

(** C4 (as amended).  [**] of a negative finite base (an integer or a
    float) to an exponent with a fractional part is handed to the complex
    power routine: it returns that routine's complex result, and fails only
    as that routine fails ([ZeroDivisionError] or [OverflowError]).  No
    error of its own marks the result as outside the real numbers. *)
Theorem C4_negative_base_fractional_exponent_is_complex
    (P : platform) (a : value) (x y : Float64.float) :
  _op.as_float a = Return x ->
  negative_finite x = true ->
  fractional y = true ->
  _op.pow P a (VFloat y)
  = complex_power_outcome (c_pow P (x, Float64.zero) (y, Float64.zero)).
Proof.
  intros Ha Hx Hy.
  rewrite <- complex_pow_outcome, <- float_pow_complex by assumption.
  unfold _op.pow, _op.coerce.
  destruct a as [n | b | z | c]; simpl in Ha |- *.
  - rewrite Ha. reflexivity.
  - rewrite Ha. reflexivity.
  - injection Ha as ->. reflexivity.
  - discriminate.
Qed.

Lemma C4_witness :
  _op.as_float (VInt (-8)) = Return (Float64.of_Z (-8))
  /\ negative_finite (Float64.of_Z (-8)) = true
  /\ fractional (Float64.of_decimal 5 (-1)) = true
  /\ forall P : platform,
       _op.pow P (VInt (-8)) (VFloat (Float64.of_decimal 5 (-1)))
       = complex_power_outcome
           (c_pow P (Float64.of_Z (-8), Float64.zero)
                    (Float64.of_decimal 5 (-1), Float64.zero)).
Proof.
  split; [ vm_compute; reflexivity | ].
  split; [ vm_compute; reflexivity | ].
  split; [ vm_compute; reflexivity | ].
  intros P.
  apply (C4_negative_base_fractional_exponent_is_complex P (VInt (-8))
           (Float64.of_Z (-8)) (Float64.of_decimal 5 (-1)));
    vm_compute; reflexivity.
Defined.

(** C4 as stated fails: ["(-8) ** 0.5"] returns a complex number wherever
    the platform's complex power reports no error on these operands, as it
    does; no error is raised. *)
Lemma C4_counterexample :
  Parser.parse "(-8) ** 0.5" = Parser.Parsed (Expression minus_eight_to_the_half)
  /\ (forall (P : platform) (p : complex),
        c_pow P (Float64.of_Z (-8), Float64.zero)
                (Float64.of_decimal 5 (-1), Float64.zero) = (p, ENone) ->
        calculator.eval_expr P "(-8) ** 0.5" = Some (Return (VComplex p)))
  /\ exists p : complex,
       calculator.eval_expr quiet_platform "(-8) ** 0.5" = Some (Return (VComplex p)).
Proof.
  assert (Hparse : Parser.parse "(-8) ** 0.5"
                   = Parser.Parsed (Expression minus_eight_to_the_half))
    by (vm_compute; reflexivity).
  split; [ exact Hparse | ].
  split.
  - intros P p H. unfold calculator.eval_expr. rewrite Hparse.
    unfold calculator.visit_Expression.
    rewrite visit_minus_eight_to_the_half, H. reflexivity.
  - eexists. vm_compute. reflexivity.
Qed.

(** C5 (as amended).  In an input without the literals [True] and [False],
    every value evaluation returns or produces on the way, at any node the
    visitor reaches, is an integer, a float or a complex number (the last
    from [**] of a negative base to a fractional exponent): never a
    boolean, and a string or a collection is no value at all. *)
Theorem C5_values_are_int_float_or_complex
    (P : platform) (t s : expr) (v : value) :
  no_bool_literal t = true ->
  In s (walked t) ->
  calculator.visit P s = Return v ->
  (exists n, v = VInt n) \/ (exists x, v = VFloat x) \/ (exists c, v = VComplex c).
Proof.
  intros Ht Hs Hv.
  pose proof (visit_no_bool P s v (walked_no_bool t s Ht Hs) Hv) as Hb.
  destruct v as [n | b | x | c]; try discriminate; eauto.
Qed.

Lemma C5_witness :
  no_bool_literal (BinOp (Constant (CInt 4)) Div (Constant (CInt 2))) = true
  /\ In (Constant (CInt 4)) (walked (BinOp (Constant (CInt 4)) Div (Constant (CInt 2))))
  /\ forall P : platform,
       calculator.visit P (Constant (CInt 4)) = Return (VInt 4)
       /\ ((exists n, VInt 4 = VInt n) \/ (exists x, VInt 4 = VFloat x)
           \/ (exists c, VInt 4 = VComplex c)).
Proof.
  split; [ reflexivity | ].
  split; [ right; left; reflexivity | ].
  intros P. split; [ reflexivity | ].
  apply (C5_values_are_int_float_or_complex P
           (BinOp (Constant (CInt 4)) Div (Constant (CInt 2)))
           (Constant (CInt 4)) (VInt 4));
    [ reflexivity | right; left; reflexivity | reflexivity ].
Defined.

(** C5 as stated fails: ["(-8) ** 0.5"] returns a complex number (wherever
    the platform's complex power reports no error), and ["True"] returns the
    boolean [True]. *)
Lemma C5_counterexample :
  (forall (P : platform) (p : complex),
     c_pow P (Float64.of_Z (-8), Float64.zero)
             (Float64.of_decimal 5 (-1), Float64.zero) = (p, ENone) ->
     calculator.eval_expr P "(-8) ** 0.5" = Some (Return (VComplex p))
     /\ Spec.numeric (VComplex p) = false)
  /\ (exists p : complex,
        calculator.eval_expr quiet_platform "(-8) ** 0.5" = Some (Return (VComplex p)))
  /\ (forall P : platform,
        calculator.eval_expr P "True" = Some (Return (VBool true)))
  /\ Spec.numeric (VBool true) = false.
Proof.
  split.
  - intros P p H. split; [ | reflexivity ].
    unfold calculator.eval_expr.
    replace (Parser.parse "(-8) ** 0.5")
      with (Parser.Parsed (Expression minus_eight_to_the_half))
      by (vm_compute; reflexivity).
    unfold calculator.visit_Expression.
    rewrite visit_minus_eight_to_the_half, H. reflexivity.
  - split; [ eexists; vm_compute; reflexivity | ].
    split; [ intros P; vm_compute; reflexivity | reflexivity ].
Qed.

(** Dividing by a zero, from a dividend the division can be attempted on. *)
Lemma zero_division (P : platform) (vl vr : value) :
  zero_divisor vr = true ->
  dividend_ok vl vr = true ->
  _op.truediv P vl vr = Raise ZeroDivisionError
  /\ _op.floordiv vl vr = Raise ZeroDivisionError
  /\ _op.mod_ vl vr = Raise ZeroDivisionError.
Proof.
  unfold dividend_ok, fits_float.
  destruct vr as [[ | q | q] | [ | ] | [s | s | | s m e] | c]; try discriminate;
    intros _; destruct vl as [n | b | x | c]; simpl; try discriminate;
    intros H; repeat split; try reflexivity;
    unfold _op.truediv, _op.floordiv, _op.mod_; simpl;
    destruct (_op.float_of_int _) as [y | e] in H |- *;
    try discriminate; reflexivity.
Qed.

(** C6 (as amended).  When the right operand of [/], [//] or [%] evaluates
    to a zero (0, 0.0, -0.0 or False) and the left operand to an integer or
    a float - an integer over a float zero being within the range of
    floats - evaluation fails with [ZeroDivisionError], the division by
    zero of the specification; ["1 / 0"] and ["1 % 0"] do. *)
Theorem C6_division_by_zero_raises
    (P : platform) (l r : expr) (op : operator) (vl vr : value) :
  divides op = true ->
  calculator.visit P l = Return vl ->
  calculator.visit P r = Return vr ->
  zero_divisor vr = true ->
  dividend_ok vl vr = true ->
  calculator.visit P (BinOp l op r) = Raise ZeroDivisionError
  /\ Spec.error_kind_of ZeroDivisionError = Some Spec.DivisionByZeroError
  /\ calculator.eval_expr P "1 / 0" = Some (Raise ZeroDivisionError)
  /\ calculator.eval_expr P "1 % 0" = Some (Raise ZeroDivisionError).
Proof.
  intros Hop Hl Hr Hz Hd.
  split; [ | split; [ reflexivity | split; vm_compute; reflexivity ] ].
  destruct (zero_division P vl vr Hz Hd) as (Ht & Hf & Hm).
  cbn [calculator.visit]. unfold calculator.visit_BinOp.
  destruct op; try discriminate; simpl; rewrite Hl, Hr; simpl; assumption.
Qed.

Lemma C6_witness :
  divides FloorDiv = true
  /\ zero_divisor (VInt 0) = true
  /\ dividend_ok (VInt 1) (VInt 0) = true
  /\ forall P : platform,
       calculator.visit P (BinOp (Constant (CInt 1)) FloorDiv (Constant (CInt 0)))
       = Raise ZeroDivisionError.
Proof.
  split; [ reflexivity | split; [ reflexivity | split; [ reflexivity | ] ] ].
  intros P.
  exact (proj1 (C6_division_by_zero_raises P (Constant (CInt 1)) (Constant (CInt 0))
                  FloorDiv (VInt 1) (VInt 0)
                  eq_refl eq_refl eq_refl eq_refl eq_refl)).
Defined.

(** C6 as stated fails: in ["10 ** 400 / 0.0"] the right operand of [/] is
    zero and evaluation fails with [OverflowError]: the integer does not
    fit a float, and the conversion comes before the division. *)
Lemma C6_counterexample :
  exists l r : expr,
    Parser.parse "10 ** 400 / 0.0" = Parser.Parsed (Expression (BinOp l Div r))
    /\ forall P : platform,
         calculator.visit P r = Return (VFloat Float64.zero)
         /\ calculator.eval_expr P "10 ** 400 / 0.0" = Some (Raise OverflowError).
Proof.
  eexists. eexists. split; [ vm_compute; reflexivity | ].
  intros P. split; vm_compute; reflexivity.
Qed.

(** C7.  True division of integers and floats produces a float whenever it
    produces a value, also for two integers, and floor division of two
    integers produces their floored quotient, an integer:
    ["4 / 2"] is the float 2.0 and ["4 // 2"] the integer 2. *)
Theorem C7_true_division_floats_floor_division_of_ints_is_int
    (P : platform) (a b : value) :
  is_complex a = false ->
  is_complex b = false ->
  (forall v, _op.truediv P a b = Return v -> is_float v = true)
  /\ (forall m n, _op.as_int a = Some m -> _op.as_int b = Some n -> n <> 0 ->
        _op.floordiv a b = Return (VInt (m / n)))
  /\ calculator.eval_expr P "4 / 2" = Some (Return (VFloat (Float64.of_Z 2)))
  /\ calculator.eval_expr P "4 // 2" = Some (Return (VInt 2)).
Proof.
  intros Ha Hb.
  split; [ | split; [ | split; vm_compute; reflexivity ] ].
  - intros v. unfold _op.truediv, _op.coerce.
    destruct (_op.as_int a) as [m | ], (_op.as_int b) as [n | ];
      try rewrite Ha; try rewrite Hb; simpl.
    + unfold _op.int_true_divide. destruct (n =? 0); [ discriminate | ].
      destruct m;
        try match goal with
            | |- context [Float64.is_inf ?x] => destruct (Float64.is_inf x)
            end;
        intros H; try discriminate; injection H as <-; reflexivity.
    + destruct (_op.as_float a) as [x | ]; simpl; [ | discriminate ].
      destruct (_op.as_float b) as [y | ]; simpl; [ | discriminate ].
      destruct (Float64.is_zero y); intros H; try discriminate.
      injection H as <-. reflexivity.
    + destruct (_op.as_float a) as [x | ]; simpl; [ | discriminate ].
      destruct (_op.as_float b) as [y | ]; simpl; [ | discriminate ].
      destruct (Float64.is_zero y); intros H; try discriminate.
      injection H as <-. reflexivity.
    + destruct (_op.as_float a) as [x | ]; simpl; [ | discriminate ].
      destruct (_op.as_float b) as [y | ]; simpl; [ | discriminate ].
      destruct (Float64.is_zero y); intros H; try discriminate.
      injection H as <-. reflexivity.
  - intros m n Hm Hn Hn0. unfold _op.floordiv, _op.coerce.
    rewrite Hm, Hn. destruct (Z.eqb_spec n 0); [ contradiction | reflexivity ].
Qed.

Lemma C7_witness :
  is_complex (VInt 4) = false
  /\ is_complex (VInt 2) = false
  /\ forall P : platform,
       (forall v, _op.truediv P (VInt 4) (VInt 2) = Return v -> is_float v = true)
       /\ _op.floordiv (VInt 4) (VInt 2) = Return (VInt (4 / 2)).
Proof.
  split; [ reflexivity | split; [ reflexivity | ] ].
  intros P.
  destruct (C7_true_division_floats_floor_division_of_ints_is_int P (VInt 4) (VInt 2))
    as (Ht & Hf & _); try reflexivity.
  split; [ exact Ht | ].
  apply Hf; [ reflexivity | reflexivity | discriminate ].
Defined.

(** C8.  Exponentiation is right-associative: ["a ** b ** c"] is read as
    [a ** (b ** c)], so ["2 ** 3 ** 2"] is 512 and not 64. *)
Theorem C8_power_is_right_associative (P : platform) (a b c : Z) :
  0 <= b ->
  0 <= c ->
  Parser.parse_tokens
    [CONST (CInt a); DOUBLESTAR; CONST (CInt b); DOUBLESTAR; CONST (CInt c)]
    = Parser.Parsed
        (Expression (BinOp (Constant (CInt a)) Pow
                       (BinOp (Constant (CInt b)) Pow (Constant (CInt c)))))
  /\ calculator.visit P
       (BinOp (Constant (CInt a)) Pow
          (BinOp (Constant (CInt b)) Pow (Constant (CInt c))))
     = Return (VInt (a ^ (b ^ c)))
  /\ calculator.eval_expr P "2 ** 3 ** 2" = Some (Return (VInt 512))
  /\ calculator.eval_expr P "2 ** 3 ** 2" <> Some (Return (VInt 64)).
Proof.
  intros Hb Hc. split; [ reflexivity | ].
  split; [ | split; [ vm_compute; reflexivity | vm_compute; discriminate ] ].
  unfold calculator.visit, calculator.visit_BinOp, calculator.visit_Constant; simpl.
  cbv [_op.pow _op.coerce _op.as_int _op.int_pow bind].
  destruct (Z.ltb_spec c 0) as [Hlt | _]; [ lia | ].
  cbv [_op.as_int].
  destruct (Z.ltb_spec (b ^ c) 0) as [Hlt | _]; [ | reflexivity ].
  pose proof (Z.pow_nonneg b c Hb). lia.
Qed.

Lemma C8_witness :
  0 <= 3
  /\ 0 <= 2
  /\ forall P : platform,
       calculator.visit P
         (BinOp (Constant (CInt 2)) Pow
            (BinOp (Constant (CInt 3)) Pow (Constant (CInt 2))))
       = Return (VInt (2 ^ (3 ^ 2))).
Proof.
  split; [ lia | split; [ lia | ] ].
  intros P.
  destruct (C8_power_is_right_associative P 2 3 2) as (_ & H & _);
    [ lia | lia | exact H ].
Defined.

(** C9 (as amended).  An input whose parentheses do not match never
    evaluates: whenever the model answers for it, the answer is
    [SyntaxError]; ["(1"], ["1)"] and ["(()"] are rejected so.  The empty
    parentheses ["()"] are the empty tuple, and fail as an unsupported
    construct. *)
Theorem C9_unbalanced_parentheses_are_a_syntax_error
    (P : platform) (s : string) (ts : list token) (r : result value) :
  tokenize s = Some ts ->
  parens_balanced 0 ts = false ->
  calculator.eval_expr P s = Some r ->
  r = Raise SyntaxError
  /\ calculator.eval_expr P "(1" = Some (Raise SyntaxError)
  /\ calculator.eval_expr P "1)" = Some (Raise SyntaxError)
  /\ calculator.eval_expr P "(()" = Some (Raise SyntaxError)
  /\ calculator.eval_expr P "()"
     = Some (Raise (ValueError (UnsupportedComponent "Tuple"))).
Proof.
  intros Hts Hb Hr.
  split; [ | repeat split; vm_compute; reflexivity ].
  unfold calculator.eval_expr, Parser.parse in Hr. rewrite Hts in Hr.
  unfold Parser.parse_tokens in Hr.
  destruct (Parser.run Parser.initial ts) as [m | | ] eqn:Erun.
  - apply run_parens in Erun. change (open_parens Parser.initial) with O in Erun.
    congruence.
  - now injection Hr as <-.
  - discriminate.
Qed.

Lemma C9_witness :
  tokenize "(1" = Some [LPAR; CONST (CInt 1)]
  /\ parens_balanced 0 [LPAR; CONST (CInt 1)] = false
  /\ forall P : platform,
       calculator.eval_expr P "(1" = Some (Raise SyntaxError)
       /\ Raise SyntaxError = Raise SyntaxError :> result value.
Proof.
  split; [ vm_compute; reflexivity | split; [ reflexivity | ] ].
  intros P. split; [ vm_compute; reflexivity | ].
  apply (C9_unbalanced_parentheses_are_a_syntax_error P "(1"
           [LPAR; CONST (CInt 1)] (Raise SyntaxError));
    [ vm_compute; reflexivity | reflexivity | vm_compute; reflexivity ].
Defined.

(** C9 as stated fails: ["()"] parses, as the empty tuple, and evaluation
    fails with the [ValueError] of an unsupported construct, not with
    [SyntaxError]. *)
Lemma C9_counterexample :
  Parser.parse "()" = Parser.Parsed (Expression (Tuple []))
  /\ forall P : platform,
       calculator.eval_expr P "()"
       = Some (Raise (ValueError (UnsupportedComponent "Tuple"))).
Proof.
  split; [ vm_compute; reflexivity | intros P; vm_compute; reflexivity ].
Qed.



(** ** Further properties of the evaluator *)

(** The allow-list is enforced on the whole tree: evaluation returns a
    value only for a tree made of integer, boolean and float constants, the
    seven binary operators of [_ALLOWED_BIN_OPS] and the two unary operators
    of [_ALLOWED_UNARY_OPS]. *)
Theorem visit_returns_only_on_allow_listed_trees
    (P : platform) (t : expr) (v : value) :
  calculator.visit P t = Return v -> allow_listed t = true.
Proof.
  revert v.
  induction t as [c | l IHl op r IHr | op e IHe | | | | | | ]; simpl; intros v H;
    try discriminate.
  - destruct c; try discriminate; reflexivity.
  - unfold calculator.visit_BinOp in H.
    destruct (calculator.dict_get operator_eqb (calculator._ALLOWED_BIN_OPS P) op)
      as [f | ] eqn:Ef; [ | discriminate ].
    destruct (calculator.visit P l) as [vl | ]; simpl in H; [ | discriminate ].
    destruct (calculator.visit P r) as [vr | ]; simpl in H; [ | discriminate ].
    rewrite (IHl vl eq_refl), (IHr vr eq_refl).
    destruct op; try discriminate; reflexivity.
  - unfold calculator.visit_UnaryOp in H.
    destruct (calculator.dict_get unaryop_eqb calculator._ALLOWED_UNARY_OPS op)
      as [f | ] eqn:Ef; [ | discriminate ].
    destruct (calculator.visit P e) as [w | ]; simpl in H; [ | discriminate ].
    rewrite (IHe w eq_refl).
    destruct op; try discriminate; reflexivity.
Qed.

Lemma visit_returns_only_on_allow_listed_trees_witness :
  calculator.visit quiet_platform
    (BinOp (Constant (CInt 2)) Add (Constant (CBool true))) = Return (VInt 3)
  /\ allow_listed (BinOp (Constant (CInt 2)) Add (Constant (CBool true))) = true.
Proof.
  split; [ reflexivity | ].
  exact (visit_returns_only_on_allow_listed_trees quiet_platform
           (BinOp (Constant (CInt 2)) Add (Constant (CBool true))) (VInt 3) eq_refl).
Defined.

(** Every [ValueError] speaks of a node of the input that the visitor
    reached: a constant that is no number, a binary or unary operator
    outside the tables, or a node of a class other than [Constant], [BinOp]
    and [UnaryOp]. *)
Theorem value_error_blames_a_node_of_the_input
    (P : platform) (t : expr) (w : unsupported) :
  calculator.visit P t = Raise (ValueError w) ->
  exists s, In s (walked t) /\ blamed w s.
Proof.
  induction t as [c | l IHl op r IHr | op e IHe | | | | | | ]; simpl; intros H;
    try (injection H as <-; eexists; split; [ left; reflexivity | ];
         simpl; split; [ reflexivity | exact I ]).
  - unfold calculator.visit_Constant in H.
    destruct c; simpl in H; try discriminate; injection H as <-;
      (eexists; split; [ left; reflexivity | ]; simpl; split; [ reflexivity | exact I ]).
  - unfold calculator.visit_BinOp in H.
    destruct (calculator.dict_get operator_eqb (calculator._ALLOWED_BIN_OPS P) op)
      as [f | ] eqn:Ef.
    + destruct (calculator.visit P l) as [vl | el] eqn:El; simpl in H.
      * destruct (calculator.visit P r) as [vr | er] eqn:Er; simpl in H.
        -- pose proof (allowed_bin_op_result P op f vl vr Ef) as Hf.
           rewrite H in Hf. discriminate.
        -- destruct (IHr H) as (s & Hs & Hb).
           exists s. split; [ right; apply in_or_app; right; exact Hs | exact Hb ].
      * destruct (IHl H) as (s & Hs & Hb).
        exists s. split; [ right; apply in_or_app; left; exact Hs | exact Hb ].
    + injection H as <-. eexists. split; [ left; reflexivity | ].
      simpl. split; [ eauto | destruct op; try discriminate; reflexivity ].
  - unfold calculator.visit_UnaryOp in H.
    destruct (calculator.dict_get unaryop_eqb calculator._ALLOWED_UNARY_OPS op)
      as [f | ] eqn:Ef.
    + destruct (calculator.visit P e) as [v | ee] eqn:Ee; simpl in H.
      * pose proof (allowed_unary_op_result op f v Ef) as Hf.
        rewrite H in Hf. discriminate.
      * destruct (IHe H) as (s & Hs & Hb).
        exists s. split; [ right; exact Hs | exact Hb ].
    + injection H as <-. eexists. split; [ left; reflexivity | ].
      simpl. split; [ eauto | destruct op; try discriminate; reflexivity ].
Qed.

Lemma value_error_blames_a_node_of_the_input_witness :
  calculator.visit quiet_platform
    (BinOp (Constant (CInt 1)) Add (BinOp (Constant (CInt 2)) MatMult (Name "x")))
  = Raise (ValueError (UnsupportedBinaryOperator MatMult))
  /\ exists s,
       In s (walked (BinOp (Constant (CInt 1)) Add
                       (BinOp (Constant (CInt 2)) MatMult (Name "x"))))
       /\ blamed (UnsupportedBinaryOperator MatMult) s.
Proof.
  split; [ reflexivity | ].
  exact (value_error_blames_a_node_of_the_input quiet_platform
           (BinOp (Constant (CInt 1)) Add
              (BinOp (Constant (CInt 2)) MatMult (Name "x")))
           (UnsupportedBinaryOperator MatMult) eq_refl).
Defined.

Lemma visit_UnaryOp_eq (P : platform) (op : unaryop) (e : expr) :
  calculator.visit P (UnaryOp op e)
  = calculator.visit_UnaryOp (calculator.visit P) op e.
Proof. reflexivity. Qed.

Lemma visit_BinOp_eq (P : platform) (l r : expr) (op : operator) :
  calculator.visit P (BinOp l op r)
  = calculator.visit_BinOp P (calculator.visit P) l op r.
Proof. reflexivity. Qed.

Lemma opp_involutive (x : Float64.float) : Float64.opp (Float64.opp x) = x.
Proof. destruct x; simpl; rewrite ?negb_involutive; reflexivity. Qed.

(** Unary plus is the identity and two unary minus signs cancel, on every
    operand that evaluates to a number other than a [bool]; so ["--5"] and
    ["-+-5"] are 5.  (A [bool] becomes the integer it stands for.) *)
Theorem unary_plus_and_double_minus_are_identities
    (P : platform) (e : expr) (v : value) :
  calculator.visit P e = Return v ->
  is_bool v = false ->
  calculator.visit P (UnaryOp UAdd e) = Return v
  /\ calculator.visit P (UnaryOp USub (UnaryOp USub e)) = Return v
  /\ calculator.eval_expr P "--5" = Some (Return (VInt 5))
  /\ calculator.eval_expr P "-+-5" = Some (Return (VInt 5)).
Proof.
  intros He Hv.
  split; [ | split; [ | split; vm_compute; reflexivity ] ].
  - rewrite visit_UnaryOp_eq. unfold calculator.visit_UnaryOp.
    cbn [calculator.dict_get calculator._ALLOWED_UNARY_OPS unaryop_eqb].
    rewrite He. destruct v; try discriminate; reflexivity.
  - do 2 (rewrite visit_UnaryOp_eq; unfold calculator.visit_UnaryOp;
          cbn [calculator.dict_get calculator._ALLOWED_UNARY_OPS unaryop_eqb]).
    rewrite He. destruct v as [n | b | x | [re im]]; try discriminate; simpl.
    + now rewrite Z.opp_involutive.
    + now rewrite opp_involutive.
    + now rewrite !opp_involutive.
Qed.

Lemma unary_plus_and_double_minus_are_identities_witness :
  is_bool (VInt 5) = false
  /\ forall P : platform,
       calculator.visit P (UnaryOp USub (UnaryOp USub (Constant (CInt 5))))
       = Return (VInt 5).
Proof.
  split; [ reflexivity | ].
  intros P.
  exact (proj1 (proj2 (unary_plus_and_double_minus_are_identities P
                         (Constant (CInt 5)) (VInt 5) eq_refl eq_refl))).
Defined.

(** Integer arithmetic is exact: an expression of integer literals, unary
    signs and [+], [-], [*], [//], [%] and [**] (no zero divisor, no
    negative exponent) evaluates to the integer it denotes, whatever its
    size, [//] rounding toward minus infinity and [%] taking the sign of
    the divisor. *)
Theorem integer_expressions_evaluate_exactly
    (P : platform) (t : expr) (n : Z) :
  int_denote t = Some n -> calculator.visit P t = Return (VInt n).
Proof.
  revert n.
  induction t as [c | l IHl op r IHr | op e IHe | | | | | | ]; simpl; intros n H;
    try discriminate.
  - destruct c; try discriminate. injection H as <-. reflexivity.
  - destruct (int_denote l) as [a | ]; [ | discriminate ].
    destruct (int_denote r) as [b | ]; [ | discriminate ].
    unfold calculator.visit_BinOp.
    destruct op; try discriminate; simpl;
      rewrite (IHl a eq_refl), (IHr b eq_refl); simpl.
    + injection H as <-. reflexivity.
    + injection H as <-. reflexivity.
    + injection H as <-. reflexivity.
    + unfold _op.mod_. simpl. destruct (b =? 0); [ discriminate | ].
      injection H as <-. reflexivity.
    + unfold _op.pow, _op.int_pow. simpl. destruct (b <? 0); [ discriminate | ].
      injection H as <-. reflexivity.
    + unfold _op.floordiv. simpl. destruct (b =? 0); [ discriminate | ].
      injection H as <-. reflexivity.
  - unfold calculator.visit_UnaryOp.
    destruct op; try discriminate; simpl.
    + rewrite (IHe n H). reflexivity.
    + destruct (int_denote e) as [a | ]; [ | discriminate ].
      injection H as <-. rewrite (IHe a eq_refl). reflexivity.
Qed.

Lemma integer_expressions_evaluate_exactly_witness :
  int_denote (BinOp (UnaryOp USub (Constant (CInt 7))) FloorDiv (Constant (CInt 2)))
  = Some (-4)
  /\ forall P : platform,
       calculator.visit P
         (BinOp (UnaryOp USub (Constant (CInt 7))) FloorDiv (Constant (CInt 2)))
       = Return (VInt (-4)).
Proof.
  split; [ reflexivity | ].
  intros P.
  exact (integer_expressions_evaluate_exactly P
           (BinOp (UnaryOp USub (Constant (CInt 7))) FloorDiv (Constant (CInt 2)))
           (-4) eq_refl).
Defined.

(** Floor division and modulo of integers fit together: for operands that
    evaluate to the integers [a] and [b], [b] not zero, [a // b] and [a % b]
    evaluate to integers [q] and [m] with [a = q * b + m], and [m] is zero
    or has the sign of the divisor and a smaller magnitude. *)
Theorem floor_division_and_modulo_fit_together
    (P : platform) (l r : expr) (a b : Z) :
  calculator.visit P l = Return (VInt a) ->
  calculator.visit P r = Return (VInt b) ->
  b <> 0 ->
  exists q m,
    calculator.visit P (BinOp l FloorDiv r) = Return (VInt q)
    /\ calculator.visit P (BinOp l Mod r) = Return (VInt m)
    /\ a = q * b + m
    /\ (0 <= m < b \/ b < m <= 0).
Proof.
  intros Hl Hr Hb. exists (a / b), (a mod b).
  cbn [calculator.visit]. unfold calculator.visit_BinOp. simpl.
  rewrite Hl, Hr. simpl. unfold _op.floordiv, _op.mod_. simpl.
  destruct (Z.eqb_spec b 0) as [ | _]; [ contradiction | ].
  repeat split.
  - rewrite Z.mul_comm. apply Z.div_mod. exact Hb.
  - destruct (Z.lt_total b 0) as [Hneg | [H0 | Hpos]].
    + right. apply Z.mod_neg_bound. exact Hneg.
    + contradiction.
    + left. apply Z.mod_pos_bound. exact Hpos.
Qed.

Lemma floor_division_and_modulo_fit_together_witness :
  -2 <> 0
  /\ forall P : platform,
       exists q m,
         calculator.visit P (BinOp (Constant (CInt 7)) FloorDiv (Constant (CInt (-2))))
         = Return (VInt q)
         /\ calculator.visit P (BinOp (Constant (CInt 7)) Mod (Constant (CInt (-2))))
            = Return (VInt m)
         /\ 7 = q * -2 + m
         /\ (0 <= m < -2 \/ -2 < m <= 0).
Proof.
  split; [ discriminate | ].
  intros P.
  apply (floor_division_and_modulo_fit_together P
           (Constant (CInt 7)) (Constant (CInt (-2))) 7 (-2));
    [ reflexivity | reflexivity | discriminate ].
Defined.

(** ** Further properties of the parse *)

(** Three operands: [a o1 b o2 c] groups to the left exactly when the
    second operator does not bind tighter than the first and is not [**];
    so ["2 + 3 * 4"] is 14 and ["(2 + 3) * 4"] is 20. *)
Theorem binary_operators_group_by_precedence
    (P : platform) (t1 t2 : token) (o1 o2 : operator) (a b c : constant) :
  Parser.binary_operator t1 = Some o1 ->
  Parser.binary_operator t2 = Some o2 ->
  Parser.parse_tokens [CONST a; t1; CONST b; t2; CONST c]
  = Parser.Parsed
      (Expression
         (if groups_left o1 o2
          then BinOp (BinOp (Constant a) o1 (Constant b)) o2 (Constant c)
          else BinOp (Constant a) o1 (BinOp (Constant b) o2 (Constant c))))
  /\ calculator.eval_expr P "2 + 3 * 4" = Some (Return (VInt 14))
  /\ calculator.eval_expr P "(2 + 3) * 4" = Some (Return (VInt 20))
  /\ calculator.eval_expr P "7 - 2 - 1" = Some (Return (VInt 4)).
Proof.
  intros H1 H2.
  split; [ | repeat split; vm_compute; reflexivity ].
  destruct t1; try discriminate; injection H1 as <-;
    destruct t2; try discriminate; injection H2 as <-; reflexivity.
Qed.

Lemma binary_operators_group_by_precedence_witness :
  Parser.binary_operator MINUS = Some Sub
  /\ Parser.binary_operator STAR = Some Mult
  /\ Parser.parse_tokens
       [CONST (CInt 7); MINUS; CONST (CInt 2); STAR; CONST (CInt 3)]
     = Parser.Parsed
         (Expression
            (BinOp (Constant (CInt 7)) Sub
               (BinOp (Constant (CInt 2)) Mult (Constant (CInt 3))))).
Proof.
  split; [ reflexivity | split; [ reflexivity | ] ].
  exact (proj1 (binary_operators_group_by_precedence quiet_platform MINUS STAR
                  Sub Mult (CInt 7) (CInt 2) (CInt 3) eq_refl eq_refl)).
Defined.

Lemma regroup_kind (f : Parser.frame) :
  Parser.kind f <> Parser.Top -> regroup f = f.
Proof. unfold regroup. destruct (Parser.kind f); congruence. Qed.






(** ** The interactive shell *)

(** The loop on a run of answerable lines: their dialogue, then the loop on
    what follows. *)
Lemma repl_loop_answerable (P : platform) (texts : list string)
    (rest : list calculator.keyboard) :
  forallb answerable texts = true ->
  calculator.repl_loop P (map calculator.Line texts ++ rest)
  = match dialogue P texts with
    | Some out => option_map (app out) (calculator.repl_loop P rest)
    | None => None
    end.
Proof.
  induction texts as [ | text texts IH]; simpl; intros H.
  - symmetry. apply option_map_app_nil.
  - apply andb_true_iff in H as [Ha Hs]. specialize (IH Hs).
    unfold answerable in Ha.
    apply andb_true_iff in Ha as [Ha Hblank].
    apply andb_true_iff in Ha as [Hascii Hleave].
    apply negb_true_iff in Hblank, Hleave.
    rewrite Hascii, Hleave, Hblank. simpl. unfold answer.
    destruct (calculator.eval_expr P (calculator.strip text)) as [[v | e] | ];
      trivial; rewrite IH;
      destruct (dialogue P texts) as [out | ]; trivial;
      destruct (calculator.repl_loop P rest); reflexivity.
Qed.

(** The shell goes on after an error: on lines that are all answerable it
    writes the banner, then for every line, in order, a prompt and one
    answer, the value or the error of the stripped line, and at the end of
    the input a last prompt and an empty line. *)
Theorem repl_answers_every_line_until_the_input_ends
    (P : platform) (texts : list string) :
  forallb answerable texts = true ->
  calculator._repl P (map calculator.Line texts)
  = option_map
      (fun out => calculator.Banner :: out ++ [calculator.Prompt; calculator.Blank])
      (dialogue P texts).
Proof.
  intros H. unfold calculator._repl.
  rewrite <- (app_nil_r (map calculator.Line texts)).
  rewrite (repl_loop_answerable P texts [] H).
  destruct (dialogue P texts); reflexivity.
Qed.

Lemma repl_answers_every_line_until_the_input_ends_witness :
  forallb answerable ["1/0"; " 2 + 3 "] = true
  /\ calculator._repl quiet_platform
       (map calculator.Line ["1/0"; " 2 + 3 "])
     = Some [calculator.Banner;
             calculator.Prompt; calculator.Error ZeroDivisionError;
             calculator.Prompt; calculator.Result (VInt 5);
             calculator.Prompt; calculator.Blank].
Proof.
  split; [ vm_compute; reflexivity | ].
  rewrite (repl_answers_every_line_until_the_input_ends quiet_platform
             ["1/0"; " 2 + 3 "]) by (vm_compute; reflexivity).
  vm_compute. reflexivity.
Defined.

(** The shell leaves at the first line that reads ["quit"] or ["exit"], in
    any letter case and between any blanks: what follows that line is never
    read, whatever it is, and no empty line is written. *)
Theorem repl_leaves_at_quit_and_reads_no_further
    (P : platform) (texts : list string) (q : string)
    (later : list calculator.keyboard) :
  forallb answerable texts = true ->
  calculator.is_ascii q = true ->
  calculator.leaves (calculator.strip q) = true ->
  calculator._repl P (map calculator.Line texts ++ calculator.Line q :: later)
  = option_map (fun out => calculator.Banner :: out ++ [calculator.Prompt])
      (dialogue P texts).
Proof.
  intros H Hq Hl. unfold calculator._repl.
  rewrite (repl_loop_answerable P texts _ H).
  cbn [calculator.repl_loop]. rewrite Hq, Hl. simpl.
  destruct (dialogue P texts); reflexivity.
Qed.

Lemma repl_leaves_at_quit_and_reads_no_further_witness :
  forallb answerable ["4 // 2"] = true
  /\ calculator.is_ascii "  QuIt " = true
  /\ calculator.leaves (calculator.strip "  QuIt ") = true
  /\ calculator._repl quiet_platform
       (map calculator.Line ["4 // 2"]
          ++ calculator.Line "  QuIt " :: [calculator.Line "1 < 2"; calculator.Interrupt])
     = Some [calculator.Banner; calculator.Prompt; calculator.Result (VInt 2);
             calculator.Prompt].
Proof.
  split; [ vm_compute; reflexivity | ].
  split; [ vm_compute; reflexivity | ].
  split; [ vm_compute; reflexivity | ].
  rewrite (repl_leaves_at_quit_and_reads_no_further quiet_platform
             ["4 // 2"] "  QuIt " [calculator.Line "1 < 2"; calculator.Interrupt])
    by (vm_compute; reflexivity).
  vm_compute. reflexivity.
Defined.
